(** * A shallow embedding of the Turso platform API client (src/index.ts)

    The client is a thin wrapper around [fetch]: every method builds one
    request, awaits the response and reshapes the parsed JSON.  The embedding
    keeps that shape:

    - JavaScript values are an inductive type [value]; objects are association
      lists kept in property-enumeration order;
    - the host (the [URL] constructor, the [fetch] transport and the clock
      behind [Date.now]) is a record [World]; an asynchronous method is a
      finite tree of what it asks of the host ([Async]), and [run] executes
      it in a world, returning the requests that were issued and how the
      call completed;
    - a thrown exception is the [Throws] completion.

    Conventions.  A string is a sequence of code units below 256, one per
    character of a Rocq [string].  A number is an integer-valued JavaScript
    number, kept as a [Z].  An optional field of a TypeScript interface that
    the code only reads is an [option]; [None] is [undefined].  Where the
    code copies or serializes an object ([baseUrl] in the configuration,
    the options and data of the [create] methods), the model keeps which
    keys the object has, what they hold and their order.  No key written
    by this client is an array index, so a new property goes after the
    existing ones.  Whether [new URL] accepts a path and a base is decided
    by the host; a refusal is the TypeError of the constructor, thrown
    before [fetch] is called.  The
    conversion of a string or an object to a number, which only the
    comparison in [validate] can reach, is left to the runtime and is a
    parameter of that method. *)

From Stdlib Require Import ZArith NArith Bool List String Ascii Lia.
From Stdlib Require Import Decimal DecimalString DecimalN DecimalZ.
Import ListNotations.

Local Open Scope string_scope.
Local Open Scope list_scope.
Local Open Scope Z_scope.

(* ------------------------------------------------------------------ *)
(** ** Strings *)

Definition dquote : ascii := ascii_of_nat 34.
Definition backslash : ascii := ascii_of_nat 92.

Definition str (c : ascii) : string := String c EmptyString.

Definition is_empty (s : string) : bool :=
  match s with EmptyString => true | String _ _ => false end.

Fixpoint join (sep : string) (l : list string) : string :=
  match l with
  | [] => EmptyString
  | [x] => x
  | x :: rest => (x ++ sep ++ join sep rest)%string
  end.

(** [contains c s]: the character [c] occurs in [s]. *)
Fixpoint contains (c : ascii) (s : string) : bool :=
  match s with
  | EmptyString => false
  | String a s' => Ascii.eqb a c || contains c s'
  end.

(** Number::toString on a non-negative integer, radix 10. *)
Definition N_toString (n : N) : string :=
  NilEmpty.string_of_uint (N.to_uint n).

(** Number::toString on an integer, radix 10 (the form JavaScript prints
    below 10^21 in absolute value). *)
Definition Z_toString (z : Z) : string :=
  NilZero.string_of_int (Z.to_int z).

Definition hex_digit (upper : bool) (n : N) : ascii :=
  if (n <? 10)%N then ascii_of_N (48 + n)
  else ascii_of_N ((if upper then 55 else 87) + n).

(** Two hexadecimal digits of a byte. *)
Definition hex2 (upper : bool) (b : N) : string :=
  String (hex_digit upper (b / 16)%N) (str (hex_digit upper (b mod 16)%N)).

(** [pad width z]: the decimal digits of the non-negative [z], padded with
    zeros on the left up to [width] characters. *)
Fixpoint zeros (n : nat) : string :=
  match n with O => EmptyString | S n' => String "0" (zeros n') end.

Definition pad (width : nat) (z : Z) : string :=
  let digits := N_toString (Z.to_N z) in
  (zeros (width - String.length digits) ++ digits)%string.

(* ------------------------------------------------------------------ *)
(** ** Objects: properties in enumeration order *)

Section Objects.
Context {A : Type}.

Fixpoint obj_get (k : string) (o : list (string * A)) : option A :=
  match o with
  | [] => None
  | (k', v) :: o' => if String.eqb k' k then Some v else obj_get k o'
  end.

(** Assignment of a property: an existing key keeps its place. *)
Fixpoint obj_set (k : string) (v : A) (o : list (string * A))
  : list (string * A) :=
  match o with
  | [] => [(k, v)]
  | (k', v') :: o' =>
      if String.eqb k' k then (k, v) :: o' else (k', v') :: obj_set k v o'
  end.

(** Object spread [{...o, ...extra}]: the properties of [extra] are
    assigned one by one, in order. *)
Definition obj_spread (o extra : list (string * A)) : list (string * A) :=
  fold_left (fun acc kv => obj_set (fst kv) (snd kv) acc) extra o.

Definition keys (o : list (string * A)) : list string := map fst o.
End Objects.

(* ------------------------------------------------------------------ *)
(** ** Values, exceptions and completions *)

#[warnings="-register-all"]
Inductive value : Type :=
| VUndefined
| VNull
| VBool (b : bool)
| VNum (n : Z)
| VStr (s : string)
| VArr (items : list value)
| VObj (props : list (string * value)).

Inductive JsError : Type :=
| Error (message : string)   (* new Error(message) *)
| TypeError
| SyntaxError
| RangeError.

Inductive result (A : Type) : Type :=
| Ok (a : A)
| Throws (e : JsError).
Arguments Ok {A} a.
Arguments Throws {A} e.

(** Property read [v.k] for the keys this client reads (none of them is a
    built-in property of strings, arrays, numbers or booleans): reading from
    [undefined] or [null] throws, an object gives its own property, anything
    else gives [undefined]. *)
Definition get_prop (v : value) (k : string) : result value :=
  match v with
  | VUndefined | VNull => Throws TypeError
  | VObj props =>
      Ok (match obj_get k props with Some x => x | None => VUndefined end)
  | _ => Ok VUndefined
  end.

(** [a ?? b] *)
Definition nullish (a b : value) : value :=
  match a with
  | VUndefined | VNull => b
  | _ => a
  end.

(** ToBoolean *)
Definition truthy (v : value) : bool :=
  match v with
  | VUndefined | VNull => false
  | VBool b => b
  | VNum n => negb (n =? 0)
  | VStr s => negb (is_empty s)
  | VArr _ | VObj _ => true
  end.

(** ToBoolean for a field of type [string | undefined]. *)
Definition truthy_string (o : option string) : bool :=
  match o with
  | Some s => negb (is_empty s)
  | None => false
  end.

(** A field of type [string | undefined] inside a template literal. *)
Definition template (o : option string) : string :=
  match o with
  | Some s => s
  | None => "undefined"
  end.

(** [options?.member] for an optional argument [options]. *)
Definition optional {A B : Type} (options : option A) (member : A -> option B)
  : option B :=
  match options with
  | Some o => member o
  | None => None
  end.

(** [v !== n] for a number [n]. *)
Definition strict_neq_number (v : value) (n : Z) : bool :=
  match v with
  | VNum m => negb (m =? n)
  | _ => true
  end.

(** ToNumber, with [None] for NaN.  The conversion of strings, arrays and
    objects belongs to the JavaScript runtime and is a parameter. *)
Definition ToNumber (ToNumber_object : value -> option Z) (v : value)
  : option Z :=
  match v with
  | VUndefined => None
  | VNull => Some 0
  | VBool b => Some (if b then 1 else 0)
  | VNum n => Some n
  | VStr _ | VArr _ | VObj _ => ToNumber_object v
  end.

(** [v > n] for a number [n]: false as soon as an operand is NaN. *)
Definition gt_number (ToNumber_object : value -> option Z)
  (v : value) (n : Z) : bool :=
  match ToNumber ToNumber_object v with
  | Some m => m >? n
  | None => false
  end.

(* ------------------------------------------------------------------ *)
(** ** JSON.stringify *)

Definition escape_code_unit (c : ascii) : string :=
  let n := N_of_ascii c in
  if (n =? 8)%N then String backslash "b"
  else if (n =? 9)%N then String backslash "t"
  else if (n =? 10)%N then String backslash "n"
  else if (n =? 12)%N then String backslash "f"
  else if (n =? 13)%N then String backslash "r"
  else if (n =? 34)%N then String backslash (str dquote)
  else if (n =? 92)%N then String backslash (str backslash)
  else if (n <? 32)%N then (String backslash "u00" ++ hex2 false n)%string
  else str c.

Fixpoint escape_string (s : string) : string :=
  match s with
  | EmptyString => EmptyString
  | String c s' => (escape_code_unit c ++ escape_string s')%string
  end.

Definition QuoteJSONString (s : string) : string :=
  (String dquote (escape_string s) ++ str dquote)%string.

(** SerializeJSONProperty; [None] is [undefined].  A property whose value
    serializes to [undefined] is left out of an object and printed as [null]
    in an array. *)
Fixpoint SerializeJSONProperty (v : value) : option string :=
  match v with
  | VUndefined => None
  | VNull => Some "null"%string
  | VBool b => Some (if b then "true" else "false")%string
  | VNum n => Some (Z_toString n)
  | VStr s => Some (QuoteJSONString s)
  | VArr items =>
      Some ("[" ++ join ","
              (map (fun x => match SerializeJSONProperty x with
                             | Some s => s
                             | None => "null"
                             end) items) ++ "]")%string
  | VObj props =>
      Some ("{" ++ join ","
              (flat_map (fun kv => match SerializeJSONProperty (snd kv) with
                                   | Some s =>
                                       [(QuoteJSONString (fst kv) ++ ":" ++ s)%string]
                                   | None => []
                                   end) props) ++ "}")%string
  end.

(** [JSON.stringify(v)] typed as a request body. *)
Definition JSON_stringify (v : value) : option string :=
  SerializeJSONProperty v.

(* ------------------------------------------------------------------ *)
(** ** The host: transport and clock *)

(** A URL object, kept as the two arguments of [new URL(url, base)] it
    was built from: resolving them, or refusing them, is the work of the
    host. *)
Module URL.
Record t : Type := new { url : string; base : option string }.
End URL.

(** The members of [RequestInit] this client fills in. *)
Module RequestInit.
Record t : Type :=
  { method : option string;
    headers : option (list (string * string));
    body : option string }.

(** The default [{}] of the [options] parameter. *)
Definition empty : t :=
  {| method := None; headers := None; body := None |}.
End RequestInit.

(** What this client reads of a [Response]: its status and its body as
    [response.json()] parses it ([None] when the body is not JSON).  [ok]
    is true for a status from 200 to 299, as the Fetch standard defines
    it. *)
Module Response.
Record t : Type := { status : N; json : option value }.

(** [response.json()]: a SyntaxError when the body is not JSON. *)
Definition parsed (r : t) : result value :=
  match json r with
  | Some v => Ok v
  | None => Throws SyntaxError
  end.

Definition ok (r : t) : bool :=
  ((200 <=? status r) && (status r <=? 299))%N.
End Response.

(** A request as handed to [fetch]. *)
Record Request : Type :=
  { input : URL.t; init : RequestInit.t }.

(** [URL_parses url base] tells whether [new URL(url, base)] returns a URL;
    when it does not, the constructor throws a TypeError.  [fetch] either
    resolves to a response or rejects (a network failure); [now] is the
    value of [Date.now()], in milliseconds. *)
Record World : Type :=
  { URL_parses : string -> option string -> bool;
    fetch : Request -> result Response.t;
    now : Z }.

(** An asynchronous computation: what it asks of the host, in order.
    [NewURL url base k] evaluates [new URL(url, base)] and goes on with the
    URL; [AwaitFetch req k] calls [fetch] and awaits the response. *)
Inductive Async (A : Type) : Type :=
| Return (a : A)
| Throw (e : JsError)
| NewURL (url : string) (base : option string) (k : URL.t -> Async A)
| AwaitFetch (req : Request) (k : Response.t -> Async A)
| DateNow (k : Z -> Async A).
Arguments Return {A} a.
Arguments Throw {A} e.
Arguments NewURL {A} url base k.
Arguments AwaitFetch {A} req k.
Arguments DateNow {A} k.

Fixpoint bind {A B : Type} (m : Async A) (f : A -> Async B) : Async B :=
  match m with
  | Return a => f a
  | Throw e => Throw e
  | NewURL url base k => NewURL url base (fun u => bind (k u) f)
  | AwaitFetch req k => AwaitFetch req (fun r => bind (k r) f)
  | DateNow k => DateNow (fun t => bind (k t) f)
  end.

Declare Scope async_scope.
Delimit Scope async_scope with async.
Bind Scope async_scope with Async.
Notation "x <- m ;; k" := (bind m (fun x => k))
  (at level 61, m at next level, right associativity) : async_scope.

(** A synchronous step that may throw, inside an asynchronous function. *)
Definition lift {A : Type} (r : result A) : Async A :=
  match r with
  | Ok a => Return a
  | Throws e => Throw e
  end.

(** [run w m]: the requests issued (the calls of [fetch]), oldest first,
    and the completion.  A URL that does not parse ends the call with a
    TypeError before [fetch] is called. *)
Fixpoint run {A : Type} (w : World) (m : Async A)
  : list Request * result A :=
  match m with
  | Return a => ([], Ok a)
  | Throw e => ([], Throws e)
  | NewURL url base k =>
      if URL_parses w url base then run w (k (URL.new url base))
      else ([], Throws TypeError)
  | AwaitFetch req k =>
      match fetch w req with
      | Throws e => ([req], Throws e)
      | Ok r => let (sent, res) := run w (k r) in (req :: sent, res)
      end
  | DateNow k => run w (k (now w))
  end.

Definition requests {A : Type} (w : World) (m : Async A) : list Request :=
  fst (run w m).

Definition completion {A : Type} (w : World) (m : Async A) : result A :=
  snd (run w m).

(* ------------------------------------------------------------------ *)
(** ** TursoConfig and TursoClient *)

(** [baseUrl?: string] keeps apart an object without the key ([None]),
    one whose key holds [undefined] ([Some None]) and one whose key holds a
    string: the constructor of the client tells them apart.  For [org] the
    code only reads the value, so a missing key and [undefined] are one. *)
Module TursoConfig.
Record t : Type :=
  { token : string;
    org : option string;
    baseUrl : option (option string) }.

(** The property read [config.baseUrl]. *)
Definition read_baseUrl (c : t) : option string :=
  match baseUrl c with
  | Some v => v
  | None => None
  end.
End TursoConfig.

Module TursoClient.
Import TursoConfig.

(** Each resource client is an object whose only field is the shared
    configuration; it is modelled by that configuration. *)
Record t : Type :=
  { config : TursoConfig.t;
    apiTokens : TursoConfig.t;
    organizations : TursoConfig.t;
    locations : TursoConfig.t;
    groups : TursoConfig.t;
    databases : TursoConfig.t }.

Definition default_baseUrl : string := "https://api.turso.tech/v1".

(** [{ baseUrl: "https://api.turso.tech/v1", ...config }]: a [baseUrl]
    key of [config] replaces the default whatever it holds, [undefined]
    too. *)
Definition stored_config (c : TursoConfig.t) : TursoConfig.t :=
  {| token := token c;
     org := org c;
     baseUrl := match baseUrl c with
                | Some v => Some v
                | None => Some (Some default_baseUrl)
                end |}.

Definition constructor (c : TursoConfig.t) : t :=
  let this_config := stored_config c in
  {| config := this_config;
     apiTokens := this_config;
     organizations := this_config;
     locations := this_config;
     groups := this_config;
     databases := this_config |}.

(** The headers object
    [{...options.headers, Authorization: ..., "User-Agent": "JS SDK"}]. *)
Definition request_headers (c : TursoConfig.t) (options : RequestInit.t)
  : list (string * string) :=
  let spread := match RequestInit.headers options with
                | Some h => obj_spread [] h
                | None => []
                end in
  obj_set "User-Agent" "JS SDK"
    (obj_set "Authorization" ("Bearer " ++ token c)%string spread).

Definition status_message (status : N) : string :=
  ("Something went wrong! Status " ++ N_toString status)%string.

(** The second argument of [fetch]: [{...options, headers: {...}}]. *)
Definition request_init (c : TursoConfig.t) (options : RequestInit.t)
  : RequestInit.t :=
  {| RequestInit.method := RequestInit.method options;
     RequestInit.headers := Some (request_headers c options);
     RequestInit.body := RequestInit.body options |}.

Definition request (url : string) (c : TursoConfig.t)
  (options : RequestInit.t) : Async value :=
  NewURL url (read_baseUrl c)
    (fun input =>
       AwaitFetch
         {| input := input;
            init := request_init c options |}
         (fun response =>
            if negb (Response.ok response)
            then Throw (Error (status_message (Response.status response)))
            else lift (Response.parsed response))).
End TursoClient.

Definition createClient (c : TursoConfig.t) : TursoClient.t :=
  TursoClient.constructor c.

(* ------------------------------------------------------------------ *)
(** ** Built-ins used by the database client: Date and URLSearchParams *)

(** A [Date] object: its time value in milliseconds, or an invalid date.  A
    time value beyond 8.64e15 in absolute value is not a time value. *)
Module Date.
Inductive t : Type :=
| Invalid
| At (ms : Z).

Definition msPerDay : Z := 86400000.

(** Year, month and day of a day number counted from 1970-01-01, in the
    proleptic Gregorian calendar. *)
Definition civil_from_days (days : Z) : Z * Z * Z :=
  let z := days + 719468 in
  let era := z / 146097 in
  let doe := z - era * 146097 in
  let yoe := (doe - doe / 1460 + doe / 36524 - doe / 146096) / 365 in
  let doy := doe - (365 * yoe + yoe / 4 - yoe / 100) in
  let mp := (5 * doy + 2) / 153 in
  let d := doy - (153 * mp + 2) / 5 + 1 in
  let m := if mp <? 10 then mp + 3 else mp - 9 in
  let y := yoe + era * 400 + (if m <=? 2 then 1 else 0) in
  (y, m, d).

(** Four digits for the years 0 to 9999, a sign and six digits outside. *)
Definition year_string (y : Z) : string :=
  if (0 <=? y) && (y <=? 9999) then pad 4 y
  else if y <? 0 then ("-" ++ pad 6 (- y))%string
  else ("+" ++ pad 6 y)%string.

Definition format (ms : Z) : string :=
  let days := ms / msPerDay in
  let t := ms mod msPerDay in
  let '(y, m, d) := civil_from_days days in
  (year_string y ++ "-" ++ pad 2 m ++ "-" ++ pad 2 d ++ "T"
     ++ pad 2 (t / 3600000) ++ ":" ++ pad 2 ((t / 60000) mod 60) ++ ":"
     ++ pad 2 ((t / 1000) mod 60) ++ "." ++ pad 3 (t mod 1000) ++ "Z")%string.

(** [date.toISOString()]: a RangeError on an invalid date. *)
Definition toISOString (d : t) : result string :=
  match d with
  | Invalid => Throws RangeError
  | At ms =>
      if Z.abs ms <=? 8640000000000000 then Ok (format ms)
      else Throws RangeError
  end.
End Date.

Module URLSearchParams.
(** The list of name-value pairs of the object. *)
Definition t : Type := list (string * string).

(** [new URLSearchParams()] *)
Definition new : t := [].

(** [set(name, value)]: the first pair of that name takes the value and
    the other pairs of that name go; without one, the pair is appended. *)
Fixpoint set (name value : string) (q : t) : t :=
  match q with
  | [] => [(name, value)]
  | (n, v) :: q' =>
      if String.eqb n name
      then (name, value)
             :: filter (fun p => negb (String.eqb (fst p) name)) q'
      else (n, v) :: set name value q'
  end.

Definition has (name : string) (q : t) : bool :=
  existsb (fun p => String.eqb (fst p) name) q.

(** The bytes of the UTF-8 encoding of a code unit below 256. *)
Definition utf8 (c : ascii) : list N :=
  let n := N_of_ascii c in
  if (n <? 128)%N then [n] else [(192 + n / 64)%N; (128 + n mod 64)%N].

(** The application/x-www-form-urlencoded byte serializer. *)
Definition encode_byte (b : N) : string :=
  if (b =? 32)%N then "+"
  else if ((b =? 42) || (b =? 45) || (b =? 46) || (b =? 95)
           || ((48 <=? b) && (b <=? 57))
           || ((65 <=? b) && (b <=? 90))
           || ((97 <=? b) && (b <=? 122)))%N
       then str (ascii_of_N b)
       else ("%" ++ hex2 true b)%string.

Fixpoint encode (s : string) : string :=
  match s with
  | EmptyString => EmptyString
  | String c s' =>
      (String.concat EmptyString (map encode_byte (utf8 c)) ++ encode s')%string
  end.

(** [toString()], which a template literal calls. *)
Definition toString (q : t) : string :=
  join "&" (map (fun p => (encode (fst p) ++ "=" ++ encode (snd p))%string) q).
End URLSearchParams.

(** [Object.entries(v)] on a value: the own enumerable string-keyed
    properties, in order.  Arrays and strings have their indices. *)
Fixpoint indexed {A : Type} (i : N) (l : list A) : list (string * A) :=
  match l with
  | [] => []
  | x :: l' => (N_toString i, x) :: indexed (N.succ i) l'
  end.

Definition Object_entries (v : value) : result (list (string * value)) :=
  match v with
  | VUndefined | VNull => Throws TypeError
  | VBool _ | VNum _ => Ok []
  | VStr s => Ok (indexed 0 (map (fun c => VStr (str c)) (list_ascii_of_string s)))
  | VArr items => Ok (indexed 0 items)
  | VObj props => Ok props
  end.

(* ------------------------------------------------------------------ *)
(** ** ApiTokenClient *)

Module ApiTokenClient.
Import TursoConfig.
Local Open Scope async_scope.

Definition list (config : TursoConfig.t) : Async value :=
  response <- TursoClient.request "auth/api-tokens" config RequestInit.empty ;;
  tokens <- lift (get_prop response "tokens") ;;
  Return (nullish tokens (VArr [])).

Definition create (config : TursoConfig.t) (name : string) : Async value :=
  response <- TursoClient.request ("auth/api-tokens/" ++ name)%string config
                {| RequestInit.method := Some "POST";
                   RequestInit.headers :=
                     Some [("content-type", "application/json")];
                   RequestInit.body := None |} ;;
  Return response.

Definition revoke (config : TursoConfig.t) (name : string) : Async value :=
  response <- TursoClient.request ("auth/api-tokens/" ++ name)%string config
                {| RequestInit.method := Some "DELETE";
                   RequestInit.headers := None;
                   RequestInit.body := None |} ;;
  Return response.

(** The options [validate] hands to [request]. *)
Definition validate_options (token : string) : RequestInit.t :=
  {| RequestInit.method := None;
     RequestInit.headers :=
       Some [("Authorization", ("Bearer " ++ token)%string)];
     RequestInit.body := None |}.

Definition validate (ToNumber_object : value -> option Z)
  (config : TursoConfig.t) (token : string) : Async value :=
  response <- TursoClient.request "auth/api-tokens/validate" config
                (validate_options token) ;;
  ms <- DateNow (fun ms => Return ms) ;;
  let currentTime := ms / 1000 in
  exp <- lift (get_prop response "exp") ;;
  Return (VObj [("valid",
                 VBool (strict_neq_number exp (-1)
                        && gt_number ToNumber_object exp currentTime));
                ("expiry", exp)]).
End ApiTokenClient.

(* ------------------------------------------------------------------ *)
(** ** OrganizationClient *)

Module OrganizationClient.
Import TursoConfig.
Local Open Scope async_scope.

Definition list (config : TursoConfig.t) : Async value :=
  response <- TursoClient.request "organizations" config RequestInit.empty ;;
  organizations <- lift (get_prop response "organizations") ;;
  Return (nullish organizations (VArr [])).

Definition members (config : TursoConfig.t) : Async value :=
  response <- TursoClient.request
                ("organisations/" ++ template (org config) ++ "/members")%string
                config RequestInit.empty ;;
  members <- lift (get_prop response "members") ;;
  Return (nullish members (VArr [])).
End OrganizationClient.

(* ------------------------------------------------------------------ *)
(** ** LocationClient *)

Module LocationClient.
Import TursoConfig.
Local Open Scope async_scope.

Definition list (config : TursoConfig.t) : Async value :=
  response <- TursoClient.request "locations" config RequestInit.empty ;;
  locations <- lift (get_prop response "locations") ;;
  if negb (truthy locations) then Return (VArr [])
  else
    entries <- lift (Object_entries locations) ;;
    Return (VArr (map (fun entry =>
                         VObj [("code", VStr (fst entry));
                               ("description", snd entry)])
                      entries)).
End LocationClient.

(* ------------------------------------------------------------------ *)
(** ** GroupClient *)

Module GroupClient.
Import TursoConfig.
Local Open Scope async_scope.

(** The argument of [create]: an object with the keys [name] and
    [location], in the order its maker wrote them. *)
Inductive Data : Type :=
| name_location (name : string) (location : Datatypes.list string)
| location_name (location : Datatypes.list string) (name : string).

Definition Data_value (data : Data) : value :=
  match data with
  | name_location name location =>
      VObj [("name", VStr name); ("location", VArr (map VStr location))]
  | location_name location name =>
      VObj [("location", VArr (map VStr location)); ("name", VStr name)]
  end.

Definition POST : RequestInit.t :=
  {| RequestInit.method := Some "POST";
     RequestInit.headers := None;
     RequestInit.body := None |}.

Definition DELETE : RequestInit.t :=
  {| RequestInit.method := Some "DELETE";
     RequestInit.headers := None;
     RequestInit.body := None |}.

Definition list (config : TursoConfig.t) : Async value :=
  response <- TursoClient.request
                (if truthy_string (org config)
                 then "organizations/" ++ template (org config) ++ "/groups"
                 else "groups")%string
                config RequestInit.empty ;;
  groups <- lift (get_prop response "groups") ;;
  Return (nullish groups (VArr [])).

Definition get (config : TursoConfig.t) (name : string) : Async value :=
  response <- TursoClient.request
                (if truthy_string (org config)
                 then "organizations/" ++ template (org config)
                        ++ "/groups/" ++ name
                 else "groups/" ++ name)%string
                config RequestInit.empty ;;
  lift (get_prop response "group").

Definition create (config : TursoConfig.t) (data : Data) : Async value :=
  response <- TursoClient.request
                (if truthy_string (org config)
                 then "organizations/" ++ template (org config) ++ "/groups"
                 else "groups")%string
                config
                {| RequestInit.method := Some "POST";
                   RequestInit.headers :=
                     Some [("content-type", "application/json")];
                   RequestInit.body := JSON_stringify (Data_value data) |} ;;
  lift (get_prop response "group").

Definition delete (config : TursoConfig.t) (name : string) : Async value :=
  response <- TursoClient.request
                (if truthy_string (org config)
                 then "organizations/" ++ template (org config)
                        ++ "/groups/" ++ name
                 else "groups/" ++ name)%string
                config DELETE ;;
  lift (get_prop response "group").

Definition addLocation (config : TursoConfig.t)
  (groupName location : string) : Async value :=
  let endpoint :=
    (if truthy_string (org config)
     then "organizations/" ++ template (org config) ++ "/groups/"
            ++ groupName ++ "/locations/" ++ location
     else "groups/" ++ groupName ++ "/locations/" ++ location)%string in
  response <- TursoClient.request endpoint config POST ;;
  lift (get_prop response "group").

Definition removeLocation (config : TursoConfig.t)
  (groupName location : string) : Async value :=
  let endpoint :=
    (if truthy_string (org config)
     then "organizations/" ++ template (org config) ++ "/groups/"
            ++ groupName ++ "/locations/" ++ location
     else "groups/" ++ groupName ++ "/locations/" ++ location)%string in
  response <- TursoClient.request endpoint config DELETE ;;
  lift (get_prop response "group").
End GroupClient.

(* ------------------------------------------------------------------ *)
(** ** DatabaseClient *)

Module DatabaseClient.
Import TursoConfig.
Local Open Scope async_scope.

Inductive Image : Type := latest | canary.

Definition Image_string (i : Image) : string :=
  match i with latest => "latest" | canary => "canary" end.

(** The options of [create]: an object of type [{ image; group? }].  It
    has the key [image] and may have the key [group], before or after it;
    the key [group] may hold [undefined] ([None]). *)
Inductive CreateOptions : Type :=
| image_only (image : Image)
| image_group (image : Image) (group : option string)
| group_image (group : option string) (image : Image).

(** A member of type [string | undefined] as a value. *)
Definition string_or_undefined (s : option string) : value :=
  match s with
  | Some x => VStr x
  | None => VUndefined
  end.

(** The own properties of a [CreateOptions] object, in its order, as a
    spread copies them. *)
Definition CreateOptions_props (o : CreateOptions)
  : Datatypes.list (string * value) :=
  match o with
  | image_only image => [("image", VStr (Image_string image))]
  | image_group image group =>
      [("image", VStr (Image_string image));
       ("group", string_or_undefined group)]
  | group_image group image =>
      [("group", string_or_undefined group);
       ("image", VStr (Image_string image))]
  end.

Inductive Authorization : Type := read_only | full_access.

Definition Authorization_string (a : Authorization) : string :=
  match a with read_only => "read-only" | full_access => "full-access" end.

(** The options of [createToken]; both members are read through [?.] and
    tested before use. *)
Record TokenOptions : Type :=
  { expiration : option string; authorization : option Authorization }.

(** [Date | string] *)
Inductive DateOrString : Type :=
| ADate (d : Date.t)
| AString (s : string).

(** The options of [usage]: [{ from?; to? }]. *)
Record UsageOptions : Type :=
  { from : option DateOrString; to : option DateOrString }.

(** ToBoolean of a member of type [Date | string | undefined]. *)
Definition truthy_date (d : option DateOrString) : bool :=
  match d with
  | Some (ADate _) => true
  | Some (AString s) => negb (is_empty s)
  | None => false
  end.

Definition POST : RequestInit.t :=
  {| RequestInit.method := Some "POST";
     RequestInit.headers := None;
     RequestInit.body := None |}.

Definition DELETE : RequestInit.t :=
  {| RequestInit.method := Some "DELETE";
     RequestInit.headers := None;
     RequestInit.body := None |}.

Definition formatDateParameter (date : DateOrString) : result string :=
  match date with
  | ADate d => Date.toISOString d
  | AString s => Ok s
  end.

Definition formatResponse (db : value) : result value :=
  match get_prop db "Name", get_prop db "DbId", get_prop db "Hostname",
        get_prop db "regions", get_prop db "primaryRegion",
        get_prop db "type", get_prop db "version", get_prop db "group" with
  | Ok name, Ok id, Ok hostname, Ok regions, Ok primaryRegion,
    Ok type, Ok version, Ok group =>
      Ok (VObj [("name", name);
                ("id", id);
                ("hostname", hostname);
                ("regions", regions);
                ("primaryRegion", primaryRegion);
                ("type", type);
                ("version", version);
                ("group", group)])
  | _, _, _, _, _, _, _, _ => Throws TypeError
  end.

(** [array.map(f)] for a callback that may throw: left to right, stopping
    at the first exception. *)
Fixpoint map_throwing (f : value -> result value) (l : Datatypes.list value)
  : result (Datatypes.list value) :=
  match l with
  | [] => Ok []
  | x :: l' =>
      match f x with
      | Throws e => Throws e
      | Ok y =>
          match map_throwing f l' with
          | Throws e => Throws e
          | Ok ys => Ok (y :: ys)
          end
      end
  end.

(** [v.map(f)]: only an array has a [map] method that can be called. *)
Definition Array_map (f : value -> result value) (v : value) : result value :=
  match v with
  | VArr items =>
      match map_throwing f items with
      | Ok ys => Ok (VArr ys)
      | Throws e => Throws e
      end
  | _ => Throws TypeError
  end.

Definition list (config : TursoConfig.t) : Async value :=
  response <- TursoClient.request
                (if truthy_string (org config)
                 then "organizations/" ++ template (org config) ++ "/databases"
                 else "databases")%string
                config RequestInit.empty ;;
  databases <- lift (get_prop response "databases") ;;
  lift (Array_map formatResponse (nullish databases (VArr []))).

Definition get (config : TursoConfig.t) (name : string) : Async value :=
  response <- TursoClient.request
                (if truthy_string (org config)
                 then "organizations/" ++ template (org config)
                        ++ "/databases/" ++ name
                 else "databases/" ++ name)%string
                config RequestInit.empty ;;
  database <- lift (get_prop response "database") ;;
  lift (formatResponse database).

(** The object [{ name, ...options }]. *)
Definition create_body (name : string) (options : option CreateOptions)
  : value :=
  VObj (obj_spread [("name", VStr name)]
          match options with
          | Some o => CreateOptions_props o
          | None => []
          end).

Definition create (config : TursoConfig.t) (name : string)
  (options : option CreateOptions) : Async value :=
  response <- TursoClient.request
                (if truthy_string (org config)
                 then "organizations/" ++ template (org config)
                        ++ "/databases/" ++ name
                 else "databases/" ++ name)%string
                config
                {| RequestInit.method := Some "POST";
                   RequestInit.headers :=
                     Some [("content-type", "application/json")];
                   RequestInit.body :=
                     JSON_stringify (create_body name options) |} ;;
  lift (get_prop response "database").

Definition update (config : TursoConfig.t) (name : string) : Async value :=
  TursoClient.request
    (if truthy_string (org config)
     then "organizations/" ++ template (org config)
            ++ "/databases/" ++ name ++ "/update"
     else "databases/" ++ name)%string
    config POST.

Definition delete (config : TursoConfig.t) (name : string) : Async value :=
  response <- TursoClient.request
                (if truthy_string (org config)
                 then "organizations/" ++ template (org config)
                        ++ "/databases/" ++ name
                 else "databases/" ++ name)%string
                config DELETE ;;
  Return response.

(** One guarded [queryParams.set(name, v)] for a member [v] of type
    [string | undefined]. *)
Definition set_string (name : string) (v : option string)
  (queryParams : URLSearchParams.t) : URLSearchParams.t :=
  match v with
  | Some s =>
      if truthy_string v then URLSearchParams.set name s queryParams
      else queryParams
  | None => queryParams
  end.

(** The search parameters [createToken] builds. *)
Definition createToken_params (options : option TokenOptions)
  : URLSearchParams.t :=
  let queryParams := URLSearchParams.new in
  let queryParams :=
    set_string "expiration" (optional options expiration) queryParams in
  set_string "authorization"
    (option_map Authorization_string (optional options authorization))
    queryParams.

Definition createToken (config : TursoConfig.t) (dbName : string)
  (options : option TokenOptions) : Async value :=
  let url :=
    (if truthy_string (org config)
     then "organizations/" ++ template (org config)
            ++ "/databases/" ++ dbName ++ "/auth/tokens"
     else "databases/" ++ dbName ++ "/auth/tokens")%string in
  let queryParams := createToken_params options in
  response <- TursoClient.request
                (url ++ "?" ++ URLSearchParams.toString queryParams)%string
                config POST ;;
  Return response.

Definition rotateTokens (config : TursoConfig.t) (dbName : string)
  : Async value :=
  TursoClient.request
    (if truthy_string (org config)
     then "organizations/" ++ template (org config)
            ++ "/databases/" ++ dbName ++ "/auth/rotate"
     else "databases/" ++ dbName ++ "/auth/rotate")%string
    config POST.

(** One guarded [queryParams.set(name, this.formatDateParameter(d))]. *)
Definition set_date (name : string) (d : option DateOrString)
  (queryParams : URLSearchParams.t) : result URLSearchParams.t :=
  match d with
  | Some date =>
      if truthy_date d
      then match formatDateParameter date with
           | Ok s => Ok (URLSearchParams.set name s queryParams)
           | Throws e => Throws e
           end
      else Ok queryParams
  | None => Ok queryParams
  end.

(** The search parameters [usage] builds; an invalid date throws. *)
Definition usage_params (options : option UsageOptions)
  : result URLSearchParams.t :=
  let queryParams := URLSearchParams.new in
  match set_date "from" (optional options from) queryParams with
  | Throws e => Throws e
  | Ok queryParams => set_date "to" (optional options to) queryParams
  end.

Definition usage (config : TursoConfig.t) (dbName : string)
  (options : option UsageOptions) : Async value :=
  let url :=
    (if truthy_string (org config)
     then "organizations/" ++ template (org config)
            ++ "/databases/" ++ dbName ++ "/usage"
     else "databases/" ++ dbName ++ "/usage")%string in
  queryParams <- lift (usage_params options) ;;
  response <- TursoClient.request
                (url ++ "?" ++ URLSearchParams.toString queryParams)%string
                config RequestInit.empty ;;
  lift (get_prop response "database").
End DatabaseClient.

(* ------------------------------------------------------------------ *)
(** ** The public surface: every method of the five resource clients *)

Inductive Method : Type :=
| apiTokens_list
| apiTokens_create (name : string)
| apiTokens_revoke (name : string)
| apiTokens_validate (token : string)
| organizations_list
| organizations_members
| locations_list
| groups_list
| groups_get (name : string)
| groups_create (data : GroupClient.Data)
| groups_delete (name : string)
| groups_addLocation (groupName location : string)
| groups_removeLocation (groupName location : string)
| databases_list
| databases_get (name : string)
| databases_create (name : string) (options : option DatabaseClient.CreateOptions)
| databases_update (name : string)
| databases_delete (name : string)
| databases_createToken (dbName : string) (options : option DatabaseClient.TokenOptions)
| databases_rotateTokens (dbName : string)
| databases_usage (dbName : string) (options : option DatabaseClient.UsageOptions).

(** [client.<resource>.<method>(...)]. *)
Definition invoke (ToNumber_object : value -> option Z)
  (client : TursoClient.t) (m : Method) : Async value :=
  match m with
  | apiTokens_list => ApiTokenClient.list (TursoClient.apiTokens client)
  | apiTokens_create name =>
      ApiTokenClient.create (TursoClient.apiTokens client) name
  | apiTokens_revoke name =>
      ApiTokenClient.revoke (TursoClient.apiTokens client) name
  | apiTokens_validate token =>
      ApiTokenClient.validate ToNumber_object (TursoClient.apiTokens client) token
  | organizations_list =>
      OrganizationClient.list (TursoClient.organizations client)
  | organizations_members =>
      OrganizationClient.members (TursoClient.organizations client)
  | locations_list => LocationClient.list (TursoClient.locations client)
  | groups_list => GroupClient.list (TursoClient.groups client)
  | groups_get name => GroupClient.get (TursoClient.groups client) name
  | groups_create data => GroupClient.create (TursoClient.groups client) data
  | groups_delete name => GroupClient.delete (TursoClient.groups client) name
  | groups_addLocation groupName location =>
      GroupClient.addLocation (TursoClient.groups client) groupName location
  | groups_removeLocation groupName location =>
      GroupClient.removeLocation (TursoClient.groups client) groupName location
  | databases_list => DatabaseClient.list (TursoClient.databases client)
  | databases_get name => DatabaseClient.get (TursoClient.databases client) name
  | databases_create name options =>
      DatabaseClient.create (TursoClient.databases client) name options
  | databases_update name =>
      DatabaseClient.update (TursoClient.databases client) name
  | databases_delete name =>
      DatabaseClient.delete (TursoClient.databases client) name
  | databases_createToken dbName options =>
      DatabaseClient.createToken (TursoClient.databases client) dbName options
  | databases_rotateTokens dbName =>
      DatabaseClient.rotateTokens (TursoClient.databases client) dbName
  | databases_usage dbName options =>
      DatabaseClient.usage (TursoClient.databases client) dbName options
  end.

(* ------------------------------------------------------------------ *)
(** ** Observations on a call *)

(** The request a call builds for [fetch] first: the one it sends when
    [new URL] accepts the path and the base.  No method consults the clock
    before it. *)
Fixpoint first_request {A : Type} (m : Async A) : option Request :=
  match m with
  | NewURL url base k => first_request (k (URL.new url base))
  | AwaitFetch req _ => Some req
  | _ => None
  end.

(** In world [w], [new URL] accepts the URL of [req]. *)
Definition accepted (w : World) (req : Request) : bool :=
  URL_parses w (URL.url (input req)) (URL.base (input req)).

(** The path given to [new URL], and a header of the request. *)
Definition path (req : Request) : string := URL.url (input req).

Definition header (name : string) (req : Request) : option string :=
  match RequestInit.headers (init req) with
  | Some h => obj_get name h
  | None => None
  end.

(** In world [w], the request of [m] is sent and the transport answers it
    with [r]. *)
Definition responds {A : Type} (w : World) (m : Async A) (r : Response.t)
  : Prop :=
  exists req, first_request m = Some req
              /\ accepted w req = true
              /\ fetch w req = Ok r.

(** In world [w], the transport answers the request of [m] with a response
    of a status from 200 to 299 whose body parses to [payload]. *)
Definition receives {A : Type} (w : World) (m : Async A) (payload : value)
  : Prop :=
  exists r, responds w m r
            /\ (200 <= Response.status r <= 299)%N
            /\ Response.json r = Some payload.

(** A world where a URL parses when its base is an http or https URL, and
    whose transport answers every request with [r]. *)
Definition http_base (url : string) (base : option string) : bool :=
  match base with
  | Some b => String.prefix "http://" b || String.prefix "https://" b
  | None => false
  end.

Definition answering (r : Response.t) (now : Z) : World :=
  {| URL_parses := http_base; fetch := fun _ => Ok r; now := now |}.

Definition json_response (status : N) (payload : value) : Response.t :=
  {| Response.status := status; Response.json := Some payload |}.

(** The status written in the message of the error [request] throws. *)
Definition status_of_message (message : string) : option N :=
  let prefix := "Something went wrong! Status " in
  if String.prefix prefix message
  then option_map N.of_uint
         (NilEmpty.uint_of_string
            (String.substring (String.length prefix)
               (String.length message - String.length prefix) message))
  else None.

(** ** Vocabulary of the properties *)

(** The request [request(url, c, options)] hands to [fetch]. *)
Definition sent_request (url : string) (c : TursoConfig.t)
  (options : RequestInit.t) : Request :=
  {| input := URL.new url (TursoConfig.read_baseUrl c);
     init := TursoClient.request_init c options |}.

(** Two values read alike at every key. *)
Definition same_properties (a b : value) : Prop :=
  forall k, get_prop a k = get_prop b k.

Definition own_keys (v : value) : list string :=
  match v with
  | VObj props => keys props
  | _ => []
  end.

(** [db] is the canonical form of the raw entry [raw]: it has the eight
    keys of [Database], [name], [id] and [hostname] read from the
    capitalized [Name], [DbId] and [Hostname], the others from the keys of
    the same name. *)
Definition normalizes (raw db : value) : Prop :=
  own_keys db = ["name"; "id"; "hostname"; "regions"; "primaryRegion";
                 "type"; "version"; "group"]
  /\ get_prop db "name" = get_prop raw "Name"
  /\ get_prop db "id" = get_prop raw "DbId"
  /\ get_prop db "hostname" = get_prop raw "Hostname"
  /\ get_prop db "type" = get_prop raw "type"
  /\ get_prop db "version" = get_prop raw "version"
  /\ get_prop db "regions" = get_prop raw "regions"
  /\ get_prop db "primaryRegion" = get_prop raw "primaryRegion"
  /\ get_prop db "group" = get_prop raw "group".

(** A raw entry that is neither [undefined] nor [null]. *)
Definition is_present (v : value) : Prop :=
  v <> VUndefined /\ v <> VNull.

(** The methods that return a list, each with the field of the envelope it
    reads. *)
Definition list_methods : list (Method * string) :=
  [(apiTokens_list, "tokens");
   (organizations_list, "organizations");
   (organizations_members, "members");
   (locations_list, "locations");
   (groups_list, "groups");
   (databases_list, "databases")].

(** The methods of [GroupClient] and [DatabaseClient]. *)
Definition in_group_or_database_client (m : Method) : bool :=
  match m with
  | groups_list | groups_get _ | groups_create _ | groups_delete _
  | groups_addLocation _ _ | groups_removeLocation _ _
  | databases_list | databases_get _ | databases_create _ _
  | databases_update _ | databases_delete _ | databases_createToken _ _
  | databases_rotateTokens _ | databases_usage _ _ => true
  | _ => false
  end.




(** A member of type [Date | string | undefined] that holds an invalid
    date. *)
Definition is_invalid_date (d : option DatabaseClient.DateOrString) : Prop :=
  exists date, d = Some (DatabaseClient.ADate date)
               /\ Date.toISOString date = Throws RangeError.

(** The text [usage] sends for a member of type [Date | string]. *)
Definition date_text (d : option DatabaseClient.DateOrString) : string :=
  match d with
  | Some date =>
      match DatabaseClient.formatDateParameter date with
      | Ok s => s
      | Throws _ => EmptyString
      end
  | None => EmptyString
  end.

(** A search parameter [name=value] as serialized, when it is present. *)
Definition parameter (present : bool) (name value : string) : list string :=
  if present
  then [(name ++ "=" ++ URLSearchParams.encode value)%string]
  else [].

(** A member of a JSON object: ["key":value]. *)
Definition json_member (key value : string) : string :=
  (QuoteJSONString key ++ ":" ++ value)%string.

(** What a method does with a parsed payload: it sends nothing more and
    throws at most a TypeError. *)
Definition settles {A : Type} (m : Async A) : Prop :=
  forall w, requests w m = []
            /\ forall message, completion w m <> Throws (Error message).

(** Every method is at most one [request] followed by steps that settle. *)
Inductive one_request : Async value -> Prop :=
| one_request_throw e :
    (forall message, e <> Error message) -> one_request (Throw e)
| one_request_plain url c options :
    one_request (TursoClient.request url c options)
| one_request_then url c options k :
    (forall payload, settles (k payload)) ->
    one_request (bind (TursoClient.request url c options) k).

(** ** Vocabulary of the further properties *)

(** The methods that return the parsed payload as it is. *)
Definition returns_payload (m : Method) : bool :=
  match m with
  | apiTokens_create _ | apiTokens_revoke _ | databases_update _
  | databases_delete _ | databases_createToken _ _
  | databases_rotateTokens _ => true
  | _ => false
  end.

(** The methods that return one field of the payload as it is, each with
    that field. *)
Definition returned_field (m : Method) : option string :=
  match m with
  | groups_get _ | groups_create _ | groups_delete _
  | groups_addLocation _ _ | groups_removeLocation _ _ => Some "group"
  | databases_create _ _ | databases_usage _ _ => Some "database"
  | _ => None
  end.

(** The list methods that return the field of the envelope unchanged when
    it is there, each with that field. *)
Definition unchecked_list_methods : list (Method * string) :=
  [(apiTokens_list, "tokens");
   (organizations_list, "organizations");
   (organizations_members, "members");
   (groups_list, "groups")].

(** The methods that send a body. *)
Definition sends_body (m : Method) : bool :=
  match m with
  | groups_create _ | databases_create _ _ => true
  | _ => false
  end.

Definition is_array (v : value) : bool :=
  match v with
  | VArr _ => true
  | _ => false
  end.

Definition is_nullish (v : value) : bool :=
  match v with
  | VUndefined | VNull => true
  | _ => false
  end.

(** Every character of [s] passes the test [p]. *)
Fixpoint all_chars (p : ascii -> bool) (s : string) : bool :=
  match s with
  | EmptyString => true
  | String c s' => p c && all_chars p s'
  end.

(** The characters a serialized query is made of: letters, digits,
    [* - . _], [+] for a space, [%] before two hexadecimal digits, and the
    separators [&] and [=]. *)
Definition is_query_char (c : ascii) : bool :=
  let n := N_of_ascii c in
  ((48 <=? n) && (n <=? 57) || (65 <=? n) && (n <=? 90)
   || (97 <=? n) && (n <=? 122)
   || (n =? 42) || (n =? 45) || (n =? 46) || (n =? 95)
   || (n =? 43) || (n =? 37) || (n =? 38) || (n =? 61))%N.

(** A character that may stand as it is inside JSON text: not a control
    character. *)
Definition is_json_char (c : ascii) : bool :=
  (32 <=? N_of_ascii c)%N.

(** The reading of a JSON string body back into the string it stands for:
    the escapes [escape_string] writes, undone.  [None] on anything else. *)
Definition hex_value (c : ascii) : option N :=
  let n := N_of_ascii c in
  if ((48 <=? n) && (n <=? 57))%N then Some (n - 48)%N
  else if ((97 <=? n) && (n <=? 102))%N then Some (n - 87)%N
  else None.

Fixpoint unescape_string (s : string) : option string :=
  match s with
  | EmptyString => Some EmptyString
  | String c rest =>
      if Ascii.eqb c backslash then
        match rest with
        | String e rest' =>
            let simple (x : nat) :=
              option_map (String (ascii_of_nat x)) (unescape_string rest') in
            if Ascii.eqb e "b" then simple 8%nat
            else if Ascii.eqb e "t" then simple 9%nat
            else if Ascii.eqb e "n" then simple 10%nat
            else if Ascii.eqb e "f" then simple 12%nat
            else if Ascii.eqb e "r" then simple 13%nat
            else if Ascii.eqb e dquote then simple 34%nat
            else if Ascii.eqb e backslash then simple 92%nat
            else if Ascii.eqb e "u" then
              match rest' with
              | String "0" (String "0" (String h (String l rest''))) =>
                  match hex_value h, hex_value l with
                  | Some a, Some b =>
                      option_map (String (ascii_of_N (16 * a + b)))
                        (unescape_string rest'')
                  | _, _ => None
                  end
              | _ => None
              end
            else None
        | EmptyString => None
        end
      else if Ascii.eqb c dquote then None
      else option_map (String c) (unescape_string rest)
  end.

(** The characters [URLSearchParams] writes for a name or a value: those
    of [is_query_char] but the separators. *)
Definition is_encoded_char (c : ascii) : bool :=
  let n := N_of_ascii c in
  ((48 <=? n) && (n <=? 57) || (65 <=? n) && (n <=? 90)
   || (97 <=? n) && (n <=? 122)
   || (n =? 42) || (n =? 45) || (n =? 46) || (n =? 95)
   || (n =? 43) || (n =? 37))%N.

(** [split_on c s]: the pieces of [s] between the occurrences of [c]. *)
Fixpoint split_on (c : ascii) (s : string) : list string :=
  match s with
  | EmptyString => [EmptyString]
  | String a s' =>
      match split_on c s' with
      | [] => []
      | piece :: pieces =>
          if Ascii.eqb a c then EmptyString :: piece :: pieces
          else String a piece :: pieces
      end
  end.

(** The names and values, as serialized, that a query string is read back
    into: its pieces between [&], each cut at [=]. *)
Definition read_query (query : string) : list (list string) :=
  map (split_on "=") (split_on "&" query).

Definition serialized_pairs (q : URLSearchParams.t) : list (list string) :=
  map (fun p => [URLSearchParams.encode (fst p); URLSearchParams.encode (snd p)]) q.

(** A JSON string with the body [text], and a member ["key":"text"] of a
    JSON object. *)
Definition quoted (text : string) : string :=
  String dquote (text ++ str dquote).

Definition member (key text : string) : string :=
  (quoted key ++ ":" ++ quoted text)%string.

(** [text] is the body of a JSON string that stands for [s]: it holds no
    control character, no quote but after a backslash, and undoing its
    escapes gives [s]. *)
Definition reads_as (text s : string) : Prop :=
  unescape_string text = Some s /\ all_chars is_json_char text = true.

(** What the key [group] of the options holds, when they have the key. *)
Definition CreateOptions_group (o : DatabaseClient.CreateOptions)
  : option (option string) :=
  match o with
  | DatabaseClient.image_only _ => None
  | DatabaseClient.image_group _ g => Some g
  | DatabaseClient.group_image g _ => Some g
  end.

(** The members of the body of [create] with options: [name], then the keys
    of the options in their order, but a [group] that holds [undefined]. *)
Definition create_members (o : DatabaseClient.CreateOptions)
  (name_text group_text : string) : list string :=
  let image i := [member "image" (DatabaseClient.Image_string i)] in
  let group (g : option string) :=
    match g with
    | Some _ => [member "group" group_text]
    | None => []
    end in
  member "name" name_text
    :: match o with
       | DatabaseClient.image_only i => image i
       | DatabaseClient.image_group i g => image i ++ group g
       | DatabaseClient.group_image g i => group g ++ image i
       end.

(** [needle] occurs in [hay]. *)
Fixpoint occurs (needle hay : string) : bool :=
  match hay with
  | EmptyString => is_empty needle
  | String _ rest => String.prefix needle hay || occurs needle rest
  end.

(* ------------------------------------------------------------------ *)
(** * Properties *)

(** ** Auxiliary facts *)

Lemma substring_whole (s : string) :
  String.substring 0 (String.length s) s = s.
Proof.
  induction s as [|c s IH]; simpl; [reflexivity | now rewrite IH].
Qed.

Lemma status_of_status_message (status : N) :
  status_of_message (TursoClient.status_message status) = Some status.
Proof.
  unfold status_of_message, TursoClient.status_message, N_toString.
  set (digits := NilEmpty.string_of_uint (N.to_uint status)).
  simpl. rewrite Nat.sub_0_r, substring_whole.
  subst digits. rewrite NilEmpty.usu. simpl.
  rewrite DecimalN.Unsigned.of_to.
  now destruct (NilEmpty.string_of_uint (N.to_uint status)).
Qed.

Lemma status_message_injective (s1 s2 : N) :
  TursoClient.status_message s1 = TursoClient.status_message s2 -> s1 = s2.
Proof.
  intros H.
  assert (E : Some s1 = Some s2)
    by (rewrite <- (status_of_status_message s1), H;
        apply status_of_status_message).
  now inversion E.
Qed.

Lemma obj_get_set_same {A : Type} k (v : A) o :
  obj_get k (obj_set k v o) = Some v.
Proof.
  induction o as [|[k' v'] o IH]; simpl.
  - now rewrite String.eqb_refl.
  - destruct (String.eqb k' k) eqn:E; simpl; rewrite ?String.eqb_refl, ?E;
      [reflexivity | exact IH].
Qed.

Lemma obj_get_set_other {A : Type} k k' (v : A) o :
  k <> k' -> obj_get k (obj_set k' v o) = obj_get k o.
Proof.
  intros Hk. induction o as [|[k0 v0] o IH]; simpl.
  - destruct (String.eqb_spec k' k); [congruence | reflexivity].
  - destruct (String.eqb_spec k0 k'); simpl.
    + subst. destruct (String.eqb_spec k' k); [congruence | reflexivity].
    + destruct (String.eqb k0 k); [reflexivity | exact IH].
Qed.

Lemma ok_true_iff (r : Response.t) :
  Response.ok r = true <-> (200 <= Response.status r <= 299)%N.
Proof.
  unfold Response.ok. rewrite andb_true_iff, !N.leb_le. tauto.
Qed.

Lemma ok_false_iff (r : Response.t) :
  Response.ok r = false
  <-> (Response.status r < 200 \/ 299 < Response.status r)%N.
Proof.
  unfold Response.ok. rewrite andb_false_iff, !N.leb_gt. tauto.
Qed.

(** Synchronous steps throw a TypeError or nothing. *)
Lemma get_prop_throws v k e : get_prop v k = Throws e -> e = TypeError.
Proof. destruct v; simpl; congruence. Qed.

Lemma Object_entries_throws v e :
  Object_entries v = Throws e -> e = TypeError.
Proof. destruct v; simpl; congruence. Qed.

Lemma formatResponse_throws db e :
  DatabaseClient.formatResponse db = Throws e -> e = TypeError.
Proof. destruct db; cbv [DatabaseClient.formatResponse get_prop]; congruence. Qed.

Lemma map_throwing_throws f l e :
  (forall x e', f x = Throws e' -> e' = TypeError) ->
  DatabaseClient.map_throwing f l = Throws e -> e = TypeError.
Proof.
  intros Hf. induction l as [|x l IH]; simpl; [congruence|].
  destruct (f x) eqn:Ex.
  - destruct (DatabaseClient.map_throwing f l); [congruence|].
    intros H. inversion H; subst. now apply IH.
  - intros H. inversion H; subst. eapply Hf; eauto.
Qed.

Lemma Array_map_throws f v e :
  (forall x e', f x = Throws e' -> e' = TypeError) ->
  DatabaseClient.Array_map f v = Throws e -> e = TypeError.
Proof.
  intros Hf. destruct v; simpl; try congruence.
  destruct (DatabaseClient.map_throwing f items) eqn:E; [congruence|].
  intros H. inversion H; subst. eapply map_throwing_throws; eauto.
Qed.

(** ** Running a call that starts with [request] *)

Section Running.
Context {A : Type}.
Variables (w : World) (url : string) (c : TursoConfig.t)
          (options : RequestInit.t) (k : value -> Async A).

Lemma first_request_bind_request :
  first_request (bind (TursoClient.request url c options) k)
  = Some (sent_request url c options).
Proof. reflexivity. Qed.

(** [new URL] throws: the call ends there, and [fetch] is not called. *)
Lemma run_not_accepted :
  accepted w (sent_request url c options) = false ->
  run w (bind (TursoClient.request url c options) k)
  = ([], Throws TypeError).
Proof.
  unfold accepted. cbn [sent_request input URL.url URL.base].
  intros H. simpl. now rewrite H.
Qed.

Lemma completion_rejected e :
  accepted w (sent_request url c options) = true ->
  fetch w (sent_request url c options) = Throws e ->
  completion w (bind (TursoClient.request url c options) k) = Throws e.
Proof.
  unfold accepted. cbn [sent_request input URL.url URL.base].
  intros Ha H. unfold completion. simpl. rewrite Ha.
  fold (sent_request url c options). now rewrite H.
Qed.

Lemma completion_not_ok r :
  accepted w (sent_request url c options) = true ->
  fetch w (sent_request url c options) = Ok r ->
  Response.ok r = false ->
  completion w (bind (TursoClient.request url c options) k)
  = Throws (Error (TursoClient.status_message (Response.status r))).
Proof.
  unfold accepted. cbn [sent_request input URL.url URL.base].
  intros Ha H Hok. unfold completion. simpl. rewrite Ha.
  fold (sent_request url c options). now rewrite H, Hok.
Qed.

Lemma completion_not_json r :
  accepted w (sent_request url c options) = true ->
  fetch w (sent_request url c options) = Ok r ->
  Response.ok r = true ->
  Response.json r = None ->
  completion w (bind (TursoClient.request url c options) k)
  = Throws SyntaxError.
Proof.
  unfold accepted. cbn [sent_request input URL.url URL.base].
  intros Ha H Hok Hj. unfold completion. simpl. rewrite Ha.
  fold (sent_request url c options).
  rewrite H, Hok. unfold Response.parsed. now rewrite Hj.
Qed.

Lemma completion_ok r payload :
  accepted w (sent_request url c options) = true ->
  fetch w (sent_request url c options) = Ok r ->
  Response.ok r = true ->
  Response.json r = Some payload ->
  completion w (bind (TursoClient.request url c options) k)
  = completion w (k payload).
Proof.
  unfold accepted. cbn [sent_request input URL.url URL.base].
  intros Ha H Hok Hj. unfold completion. simpl. rewrite Ha.
  fold (sent_request url c options).
  rewrite H, Hok. unfold Response.parsed. rewrite Hj. simpl.
  now destruct (run w (k payload)).
Qed.

Lemma requests_bind_request :
  (forall v, requests w (k v) = []) ->
  requests w (bind (TursoClient.request url c options) k)
  = if accepted w (sent_request url c options)
    then [sent_request url c options]
    else [].
Proof.
  unfold accepted. cbn [sent_request input URL.url URL.base].
  intros Hk. unfold requests. simpl.
  destruct (URL_parses w url (TursoConfig.read_baseUrl c)); [|reflexivity].
  fold (sent_request url c options).
  destruct (fetch w (sent_request url c options)) as [r|e]; [|reflexivity].
  destruct (Response.ok r); [|reflexivity]. unfold Response.parsed. simpl.
  destruct (Response.json r) as [v|]; [|reflexivity]. simpl.
  specialize (Hk v). unfold requests in Hk.
  destruct (run w (k v)); simpl in *. now rewrite Hk.
Qed.
End Running.

(* ------------------------------------------------------------------ *)
(** ** The built-ins on known values *)

Example toISOString_epoch :
  Date.toISOString (Date.At 0) = Ok "1970-01-01T00:00:00.000Z".
Proof. reflexivity. Qed.

Example toISOString_2023 :
  Date.toISOString (Date.At 1700000000000) = Ok "2023-11-14T22:13:20.000Z".
Proof. reflexivity. Qed.

Example toISOString_leap_day :
  Date.toISOString (Date.At 951782400123) = Ok "2000-02-29T00:00:00.123Z".
Proof. reflexivity. Qed.

Example toISOString_before_epoch :
  Date.toISOString (Date.At (-1)) = Ok "1969-12-31T23:59:59.999Z".
Proof. reflexivity. Qed.

Example toISOString_last_instant :
  Date.toISOString (Date.At 8640000000000000)
  = Ok "+275760-09-13T00:00:00.000Z".
Proof. reflexivity. Qed.

Example toISOString_first_instant :
  Date.toISOString (Date.At (-8640000000000000))
  = Ok "-271821-04-20T00:00:00.000Z".
Proof. reflexivity. Qed.

Example toISOString_out_of_range :
  Date.toISOString (Date.At 8640000000000001) = Throws RangeError.
Proof. reflexivity. Qed.

Example URLSearchParams_toString_example :
  URLSearchParams.toString
    (URLSearchParams.set "to" "2023-11-14T22:13:20.000Z"
       (URLSearchParams.set "from" "a b&c" URLSearchParams.new))
  = "from=a+b%26c&to=2023-11-14T22%3A13%3A20.000Z".
Proof. reflexivity. Qed.

Example JSON_stringify_example :
  JSON_stringify
    (VObj [("name", VStr "db"); ("skip", VUndefined);
           ("location", VArr [VStr "ams"; VUndefined; VNum (-3); VBool true; VNull])])
  = Some (String.concat (str dquote)
            ["{"; "name"; ":"; "db"; ","; "location"; ":["; "ams";
             ",null,-3,true,null]}"]).
Proof. reflexivity. Qed.

Lemma run_bind_Return {A : Type} (w : World) (m : Async A) :
  run w (bind m Return) = run w m.
Proof.
  induction m as [a|e|url base k IH|req k IH|k IH]; simpl;
    try reflexivity.
  - destruct (URL_parses w url base); [apply IH | reflexivity].
  - destruct (fetch w req) as [r|e]; [|reflexivity]. now rewrite IH.
  - apply IH.
Qed.

Lemma settles_Return {A : Type} (a : A) : settles (Return a).
Proof. intros w. split; [reflexivity | discriminate]. Qed.

Lemma settles_lift {A : Type} (r : result A) :
  (forall e, r = Throws e -> e = TypeError) -> settles (lift r).
Proof.
  intros H w. destruct r as [a|e]; simpl.
  - split; [reflexivity | discriminate].
  - rewrite (H e eq_refl). split; [reflexivity | discriminate].
Qed.

Lemma settles_bind_lift {A B : Type} (r : result A) (k : A -> Async B) :
  (forall e, r = Throws e -> e = TypeError) ->
  (forall a, r = Ok a -> settles (k a)) ->
  settles (bind (lift r) k).
Proof.
  intros H Hk. destruct r as [a|e]; simpl.
  - now apply Hk.
  - rewrite (H e eq_refl). intros w. split; [reflexivity | discriminate].
Qed.

Lemma settles_DateNow {A : Type} (k : Z -> Async A) :
  (forall t, settles (k t)) -> settles (DateNow k).
Proof. intros H w. exact (H (now w) w). Qed.

Create HintDb settle.

#[local] Hint Resolve settles_Return settles_lift settles_bind_lift settles_DateNow
  get_prop_throws Object_entries_throws formatResponse_throws
  Array_map_throws : settle.

Lemma formatDateParameter_throws d e :
  DatabaseClient.formatDateParameter d = Throws e -> e = RangeError.
Proof.
  destruct d as [[|ms]|s]; simpl; try congruence.
  destruct (Z.abs ms <=? 8640000000000000); congruence.
Qed.

Lemma set_date_throws name d q e :
  DatabaseClient.set_date name d q = Throws e -> e = RangeError.
Proof.
  unfold DatabaseClient.set_date. destruct d as [date|]; [|congruence].
  destruct (DatabaseClient.truthy_date (Some date)); [|congruence].
  destruct (DatabaseClient.formatDateParameter date) eqn:E; [congruence|].
  intros H. inversion H; subst. eapply formatDateParameter_throws; eauto.
Qed.

Lemma usage_params_throws options e :
  DatabaseClient.usage_params options = Throws e -> e = RangeError.
Proof.
  unfold DatabaseClient.usage_params.
  destruct (DatabaseClient.set_date "from" _ _) eqn:E.
  - apply set_date_throws.
  - intros H. inversion H; subst. eapply set_date_throws; eauto.
Qed.

Lemma invoke_one_request rt client m : one_request (invoke rt client m).
Proof.
  destruct m; cbv [invoke ApiTokenClient.list ApiTokenClient.create
    ApiTokenClient.revoke ApiTokenClient.validate OrganizationClient.list
    OrganizationClient.members LocationClient.list GroupClient.list
    GroupClient.get GroupClient.create GroupClient.delete
    GroupClient.addLocation GroupClient.removeLocation DatabaseClient.list
    DatabaseClient.get DatabaseClient.create DatabaseClient.update
    DatabaseClient.delete DatabaseClient.createToken
    DatabaseClient.rotateTokens DatabaseClient.usage].
  all: try (apply one_request_plain).
  all: try (apply one_request_then; intros payload; cbn [bind];
            eauto 8 with settle).
  - apply settles_bind_lift; [eauto with settle|]. intros locations _.
    destruct (negb (truthy locations)); eauto 8 with settle.
  - destruct (DatabaseClient.usage_params options) as [q|e] eqn:E; simpl.
    + apply one_request_then; intros payload; eauto with settle.
    + apply one_request_throw. intros message ->.
      apply usage_params_throws in E. discriminate.
Qed.

(** Every method calls [fetch] at most once: with the request it builds,
    when it builds one and [new URL] accepts it. *)
Lemma requests_invoke rt w client m :
  requests w (invoke rt client m)
  = match first_request (invoke rt client m) with
    | Some req => if accepted w req then [req] else []
    | None => []
    end.
Proof.
  destruct (invoke_one_request rt client m) as [e _|url c o|url c o k Hk].
  - reflexivity.
  - unfold requests. rewrite <- run_bind_Return.
    apply (requests_bind_request w url c o Return). reflexivity.
  - apply requests_bind_request. intros v. apply Hk.
Qed.

Lemma requests_of_first_request rt w client m req :
  first_request (invoke rt client m) = Some req ->
  accepted w req = true ->
  requests w (invoke rt client m) = [req].
Proof. intros H Ha. now rewrite requests_invoke, H, Ha. Qed.

(* ------------------------------------------------------------------ *)
(** ** The request of [validate] *)

(** [request] writes its own [Authorization] header after the headers of
    the caller, so a header of that name given in [options] is replaced. *)
Lemma request_headers_Authorization c options :
  obj_get "Authorization" (TursoClient.request_headers c options)
  = Some ("Bearer " ++ TursoConfig.token c)%string.
Proof.
  unfold TursoClient.request_headers.
  rewrite obj_get_set_other by discriminate. apply obj_get_set_same.
Qed.

Lemma validate_first_request rt config token :
  first_request (ApiTokenClient.validate rt config token)
  = Some {| input := URL.new "auth/api-tokens/validate"
                       (TursoConfig.read_baseUrl config);
            init := TursoClient.request_init config
                      (ApiTokenClient.validate_options token) |}.
Proof. reflexivity. Qed.

Lemma validate_Authorization rt config token req :
  first_request (ApiTokenClient.validate rt config token) = Some req ->
  path req = "auth/api-tokens/validate"
  /\ header "Authorization" req
     = Some ("Bearer " ++ TursoConfig.token config)%string.
Proof.
  rewrite validate_first_request. intros H. inversion H; subst; clear H.
  split; [reflexivity|]. apply request_headers_Authorization.
Qed.

(** C1 (the code departs from it).  The claim: the request of
    [validate(token)] carries the token given as argument, not the token of
    the configuration, in its Authorization header.  On the code, with the
    configuration token "configured" and the argument "given", the request
    the call builds goes to auth/api-tokens/validate with the header
    "Bearer configured": [request] overwrites the header [validate] set.
    It is the one request sent wherever the URL parses. *)
Theorem validate_sends_configured_token :
  forall (rt : value -> option Z),
    let client :=
      createClient {| TursoConfig.token := "configured";
                      TursoConfig.org := None;
                      TursoConfig.baseUrl := None |} in
    exists req,
      first_request (invoke rt client (apiTokens_validate "given")) = Some req
      /\ (forall w : World,
             accepted w req = true ->
             requests w (invoke rt client (apiTokens_validate "given"))
             = [req])
      /\ URL.base (input req) = Some "https://api.turso.tech/v1"
      /\ path req = "auth/api-tokens/validate"
      /\ header "Authorization" req = Some "Bearer configured"
      /\ header "Authorization" req <> Some "Bearer given".
Proof.
  intros rt client. eexists. split; [reflexivity|]. split.
  - intros w Hw. apply requests_of_first_request; [reflexivity | exact Hw].
  - repeat split. discriminate.
Qed.

(* ------------------------------------------------------------------ *)
(** ** Responses outside 200-299 *)

(** C2.  For every resource method and every response the transport gives
    to its request: when the status is outside 200-299 the call throws the
    error whose message is built from that status alone (the status can be
    read back from the message, and the body plays no part: it may even not
    be JSON); when the status is within 200-299 the call throws no such
    error. *)
Theorem non_2xx_fails_with_status :
  forall (rt : value -> option Z) (w : World) (client : TursoClient.t)
         (m : Method) (r : Response.t),
    responds w (invoke rt client m) r ->
    ((Response.status r < 200 \/ 299 < Response.status r)%N ->
     exists message,
       completion w (invoke rt client m) = Throws (Error message)
       /\ message = TursoClient.status_message (Response.status r)
       /\ status_of_message message = Some (Response.status r))
    /\ ((200 <= Response.status r <= 299)%N ->
        forall message,
          completion w (invoke rt client m) <> Throws (Error message)).
Proof.
  intros rt w client m r (req & Hreq & Hacc & Hfetch).
  assert (Hplain : forall url c o,
             completion w (TursoClient.request url c o)
             = completion w (bind (TursoClient.request url c o) Return))
    by (intros; unfold completion; now rewrite run_bind_Return).
  pose proof (invoke_one_request rt client m) as Hshape.
  remember (invoke rt client m) as call eqn:Hcall. clear Hcall.
  destruct Hshape as [e _|url c o|url c o k Hk].
  - discriminate.
  - rewrite Hplain. simpl in Hreq. inversion Hreq; subst; clear Hreq. split.
    + intros Hs. apply ok_false_iff in Hs. eexists. split; [|split].
      * exact (completion_not_ok w url c o _ r Hacc Hfetch Hs).
      * reflexivity.
      * apply status_of_status_message.
    + intros Hs message. apply ok_true_iff in Hs.
      destruct (Response.json r) as [v|] eqn:Hj.
      * rewrite (completion_ok w url c o _ r v Hacc Hfetch Hs Hj). discriminate.
      * rewrite (completion_not_json w url c o _ r Hacc Hfetch Hs Hj). discriminate.
  - simpl in Hreq. inversion Hreq; subst; clear Hreq. split.
    + intros Hs. apply ok_false_iff in Hs. eexists. split; [|split].
      * exact (completion_not_ok w url c o _ r Hacc Hfetch Hs).
      * reflexivity.
      * apply status_of_status_message.
    + intros Hs message. apply ok_true_iff in Hs.
      destruct (Response.json r) as [v|] eqn:Hj.
      * rewrite (completion_ok w url c o _ r v Hacc Hfetch Hs Hj). apply Hk.
      * rewrite (completion_not_json w url c o _ r Hacc Hfetch Hs Hj). discriminate.
Qed.

(** The claim at two responses to [groups.list()]: a 404 whose body is not
    JSON, and a 200. *)
Lemma non_2xx_fails_with_status_witness :
  let client := createClient {| TursoConfig.token := "t";
                                TursoConfig.org := Some "acme";
                                TursoConfig.baseUrl := None |} in
  let not_found := {| Response.status := 404; Response.json := None |} in
  let found := json_response 200 (VObj [("groups", VArr [])]) in
  completion (answering not_found 0) (invoke (fun _ => None) client groups_list)
  = Throws (Error "Something went wrong! Status 404")
  /\ completion (answering found 0) (invoke (fun _ => None) client groups_list)
     <> Throws (Error "Something went wrong! Status 200").
Proof.
  intros client not_found found. split.
  - destruct (non_2xx_fails_with_status (fun _ => None)
                (answering not_found 0) client groups_list not_found)
      as [H _].
    + eexists. split; [reflexivity | split; reflexivity].
    + destruct H as (message & Hc & Hm & _).
      * right. simpl. lia.
      * rewrite Hc, Hm. reflexivity.
  - destruct (non_2xx_fails_with_status (fun _ => None)
                (answering found 0) client groups_list found)
      as [_ H].
    + eexists. split; [reflexivity | split; reflexivity].
    + apply H. simpl. lia.
Defined.

(* ------------------------------------------------------------------ *)
(** ** Payloads of successful responses *)

Lemma completion_receives {A : Type} (w : World) url c options
  (k : value -> Async A) payload :
  receives w (bind (TursoClient.request url c options) k) payload ->
  completion w (bind (TursoClient.request url c options) k)
  = completion w (k payload).
Proof.
  intros (r & (req & Hreq & Hacc & Hfetch) & Hs & Hj).
  simpl in Hreq. inversion Hreq; subst; clear Hreq.
  apply ok_true_iff in Hs.
  exact (completion_ok w url c options k r payload Hacc Hfetch Hs Hj).
Qed.

(** A world that answers with a given 2xx payload does deliver it, when
    the base of the request is an http or https URL. *)
Lemma answering_receives {A : Type} (m : Async A) req status payload now :
  first_request m = Some req ->
  http_base (URL.url (input req)) (URL.base (input req)) = true ->
  (200 <= status <= 299)%N ->
  receives (answering (json_response status payload) now) m payload.
Proof.
  intros Hreq Hbase Hs. exists (json_response status payload).
  split; [|split]; [exists req; split; [exact Hreq | split;
                                        [exact Hbase | reflexivity]]
                   | exact Hs | reflexivity].
Defined.

(** C3.  When the server answers [validate] with a payload whose [exp] is
    the integer [exp], and [t] is the current Unix time in seconds, the call
    returns [{valid, expiry}] with [expiry] equal to [exp]; [valid] is false
    when [exp] is -1 and when [exp <= t], and is true exactly when [exp] is
    not -1 and [exp > t]. *)
Theorem validate_valid_and_expiry :
  forall (rt : value -> option Z) (w : World) (config : TursoConfig.t)
         (token : string) (payload : value) (exp : Z),
    receives w (ApiTokenClient.validate rt config token) payload ->
    get_prop payload "exp" = Ok (VNum exp) ->
    let t := now w / 1000 in
    exists valid : bool,
      completion w (ApiTokenClient.validate rt config token)
      = Ok (VObj [("valid", VBool valid); ("expiry", VNum exp)])
      /\ (exp = -1 -> valid = false)
      /\ (exp <= t -> valid = false)
      /\ (valid = true <-> exp <> -1 /\ exp > t).
Proof.
  intros rt w config token payload exp Hrec Hexp t.
  exists (negb (exp =? -1) && (exp >? t)).
  split; [|split; [|split]].
  - unfold ApiTokenClient.validate in *.
    rewrite (completion_receives _ _ _ _ _ payload Hrec).
    unfold completion. simpl. now rewrite Hexp.
  - intros ->. reflexivity.
  - intros Hle. apply andb_false_iff. right.
    rewrite Z.gtb_ltb. apply Z.ltb_ge. exact Hle.
  - rewrite andb_true_iff, negb_true_iff, Z.eqb_neq, Z.gtb_ltb, Z.ltb_lt.
    lia.
Qed.

(** The claim for a token that expired a second ago, and for the sentinel
    -1 at a time before 1970. *)
Lemma validate_valid_and_expiry_witness :
  let config := {| TursoConfig.token := "t";
                   TursoConfig.org := None;
                   TursoConfig.baseUrl := Some (Some "https://api.turso.tech/v1") |} in
  let w := answering (json_response 200 (VObj [("exp", VNum 1699999999)]))
             1700000000123 in
  exists valid : bool,
    completion w (ApiTokenClient.validate (fun _ => None) config "secret")
    = Ok (VObj [("valid", VBool valid); ("expiry", VNum 1699999999)])
    /\ (1699999999 = -1 -> valid = false)
    /\ (1699999999 <= 1700000000 -> valid = false)
    /\ (valid = true <-> 1699999999 <> -1 /\ 1699999999 > 1700000000).
Proof.
  intros config w.
  apply (validate_valid_and_expiry (fun _ => None) w config "secret"
           (VObj [("exp", VNum 1699999999)]) 1699999999).
  - eapply answering_receives; [reflexivity | reflexivity | lia].
  - reflexivity.
Defined.

(* ------------------------------------------------------------------ *)
(** ** Databases in canonical form *)

Lemma formatResponse_normalizes raw :
  is_present raw ->
  exists db, DatabaseClient.formatResponse raw = Ok db /\ normalizes raw db.
Proof.
  intros [Hu Hn].
  destruct raw; try congruence;
    (eexists; split; [reflexivity | repeat split]).
Qed.

Lemma map_formatResponse_normalizes raws :
  Forall is_present raws ->
  exists dbs,
    DatabaseClient.map_throwing DatabaseClient.formatResponse raws = Ok dbs
    /\ Forall2 normalizes raws dbs.
Proof.
  induction 1 as [|raw raws Hraw _ (dbs & Hdbs & IH)].
  - exists []. split; [reflexivity | constructor].
  - destruct (formatResponse_normalizes raw Hraw) as (db & Hdb & Hnorm).
    exists (db :: dbs). split.
    + simpl. now rewrite Hdb, Hdbs.
    + now constructor.
Qed.

Lemma get_receives w config name payload :
  receives w (DatabaseClient.get config name) payload ->
  completion w (DatabaseClient.get config name)
  = match get_prop payload "database" with
    | Ok database => DatabaseClient.formatResponse database
    | Throws e => Throws e
    end.
Proof.
  intros Hrec. unfold DatabaseClient.get in *.
  rewrite (completion_receives _ _ _ _ _ payload Hrec).
  unfold completion. simpl.
  destruct (get_prop payload "database") as [database|e]; simpl;
    [|reflexivity].
  now destruct (DatabaseClient.formatResponse database).
Qed.

(** C4.  [databases.get] and [databases.list] return every entry of the
    payload in canonical form: keyed by [name], [id], [hostname] (read from
    [Name], [DbId], [Hostname]) with [type], [version], [regions],
    [primaryRegion], [group] passed through.  In particular, with the
    configuration token "t" and org "acme", [databases.get("mydb")] requests
    organizations/acme/databases/mydb and, on the payload of the example,
    returns an object that reads as
    [{name:"mydb", id:"123", hostname:"h.turso.io", type:"sqld",
      version:"1", regions:undefined, primaryRegion:undefined,
      group:undefined}]. *)
Theorem databases_get_list_canonical :
  (forall (w : World) (config : TursoConfig.t) (name : string)
          (payload raw : value),
      receives w (DatabaseClient.get config name) payload ->
      get_prop payload "database" = Ok raw ->
      is_present raw ->
      exists db,
        completion w (DatabaseClient.get config name) = Ok db
        /\ normalizes raw db)
  /\ (forall (w : World) (config : TursoConfig.t) (payload : value)
             (raws : list value),
         receives w (DatabaseClient.list config) payload ->
         get_prop payload "databases" = Ok (VArr raws) ->
         Forall is_present raws ->
         exists dbs,
           completion w (DatabaseClient.list config) = Ok (VArr dbs)
           /\ Forall2 normalizes raws dbs)
  /\ (let client := createClient {| TursoConfig.token := "t";
                                    TursoConfig.org := Some "acme";
                                    TursoConfig.baseUrl := None |} in
      let payload :=
        VObj [("database",
               VObj [("Name", VStr "mydb"); ("DbId", VStr "123");
                     ("Hostname", VStr "h.turso.io"); ("type", VStr "sqld");
                     ("version", VStr "1")])] in
      let call := DatabaseClient.get (TursoClient.databases client) "mydb" in
      option_map path (first_request call)
      = Some "organizations/acme/databases/mydb"
      /\ forall w, receives w call payload ->
           exists db,
             completion w call = Ok db
             /\ same_properties db
                  (VObj [("name", VStr "mydb"); ("id", VStr "123");
                         ("hostname", VStr "h.turso.io");
                         ("type", VStr "sqld"); ("version", VStr "1");
                         ("regions", VUndefined);
                         ("primaryRegion", VUndefined);
                         ("group", VUndefined)])).
Proof.
  split; [|split].
  - intros w config name payload raw Hrec Hdb Hraw.
    destruct (formatResponse_normalizes raw Hraw) as (db & Hfmt & Hnorm).
    exists db. split; [|exact Hnorm].
    now rewrite (get_receives _ _ _ _ Hrec), Hdb.
  - intros w config payload raws Hrec Hdbs Hraws.
    destruct (map_formatResponse_normalizes raws Hraws) as (dbs & Hfmt & Hnorm).
    exists dbs. split; [|exact Hnorm].
    unfold DatabaseClient.list in *.
    rewrite (completion_receives _ _ _ _ _ payload Hrec).
    unfold completion. simpl. rewrite Hdbs. simpl. now rewrite Hfmt.
  - intros client payload call. split; [reflexivity|].
    intros w Hrec. eexists. split.
    + unfold call in *. rewrite (get_receives _ _ _ _ Hrec). reflexivity.
    + intros k. cbv [get_prop obj_get].
      repeat match goal with
             | |- context [String.eqb ?a k] =>
                 destruct (String.eqb_spec a k) as [<-|_]; [reflexivity|]
             end; reflexivity.
Qed.

(** The example of the claim, in a world that serves its payload. *)
Lemma databases_get_list_canonical_witness :
  let config := {| TursoConfig.token := "t";
                   TursoConfig.org := Some "acme";
                   TursoConfig.baseUrl := Some (Some "https://api.turso.tech/v1") |} in
  let raw := VObj [("Name", VStr "mydb"); ("DbId", VStr "123");
                   ("Hostname", VStr "h.turso.io"); ("type", VStr "sqld");
                   ("version", VStr "1")] in
  let w := answering (json_response 200 (VObj [("database", raw)])) 0 in
  exists db,
    completion w (DatabaseClient.get config "mydb") = Ok db
    /\ normalizes raw db.
Proof.
  intros config raw w.
  apply (proj1 databases_get_list_canonical w config "mydb"
           (VObj [("database", raw)]) raw).
  - eapply answering_receives; [reflexivity | reflexivity | lia].
  - reflexivity.
  - split; discriminate.
Defined.

(* ------------------------------------------------------------------ *)
(** ** Lists default to empty *)

(** C5.  For each of the six list methods, when the 2xx response is an
    envelope without the field the method reads, the call returns the empty
    list. *)
Theorem list_without_field_is_empty :
  forall (rt : value -> option Z) (w : World) (client : TursoClient.t)
         (m : Method) (field : string) (props : list (string * value)),
    In (m, field) list_methods ->
    receives w (invoke rt client m) (VObj props) ->
    obj_get field props = None ->
    completion w (invoke rt client m) = Ok (VArr []).
Proof.
  intros rt w client m field props Hin Hrec Hfield.
  simpl in Hin.
  repeat (destruct Hin as [Hin|Hin];
          [inversion Hin; subst; clear Hin
          |]); [..|contradiction].
  all: cbv [invoke ApiTokenClient.list OrganizationClient.list
            OrganizationClient.members LocationClient.list GroupClient.list
            DatabaseClient.list] in *.
  all: rewrite (completion_receives _ _ _ _ _ (VObj props) Hrec).
  all: unfold completion; simpl; rewrite Hfield; reflexivity.
Qed.

(** The claim on [locations.list()] and an empty envelope. *)
Lemma list_without_field_is_empty_witness :
  let client := createClient {| TursoConfig.token := "t";
                                TursoConfig.org := None;
                                TursoConfig.baseUrl := None |} in
  completion (answering (json_response 200 (VObj [])) 0)
    (invoke (fun _ => None) client locations_list)
  = Ok (VArr []).
Proof.
  intros client.
  apply (list_without_field_is_empty (fun _ => None)
           (answering (json_response 200 (VObj [])) 0) client
           locations_list "locations" []).
  - simpl. tauto.
  - eapply answering_receives; [reflexivity | reflexivity | lia].
  - reflexivity.
Defined.

(* ------------------------------------------------------------------ *)
(** ** Org-scoped paths *)








(* ------------------------------------------------------------------ *)
(** ** The payload of [usage] *)

(** C7.  On an envelope [{database, instances, total}], [usage] returns the
    [database] part as it is; [instances] and [total] play no part in the
    result. *)
Theorem usage_returns_database_part :
  forall (w : World) (config : TursoConfig.t) (dbName : string)
         (options : option DatabaseClient.UsageOptions)
         (database instances total : value),
    receives w (DatabaseClient.usage config dbName options)
      (VObj [("database", database); ("instances", instances);
             ("total", total)]) ->
    completion w (DatabaseClient.usage config dbName options) = Ok database.
Proof.
  intros w config dbName options database instances total Hrec.
  unfold DatabaseClient.usage in *.
  destruct (DatabaseClient.usage_params options) as [queryParams|e];
    cbn [bind lift] in *.
  - rewrite (completion_receives _ _ _ _ _ _ Hrec). reflexivity.
  - destruct Hrec as (r & (req & Hreq & _) & _). discriminate Hreq.
Qed.

(** The claim on a usage report for one day. *)
Lemma usage_returns_database_part_witness :
  let config := {| TursoConfig.token := "t";
                   TursoConfig.org := Some "acme";
                   TursoConfig.baseUrl := Some (Some "https://api.turso.tech/v1") |} in
  let options := Some {| DatabaseClient.from :=
                           Some (DatabaseClient.ADate (Date.At 1700000000000));
                         DatabaseClient.to :=
                           Some (DatabaseClient.AString "2023-11-15") |} in
  let database := VObj [("uuid", VStr "u"); ("instances", VArr []);
                        ("usage", VObj [("rows_read", VNum 7)])] in
  let payload := VObj [("database", database); ("instances", VObj []);
                       ("total", VObj [("rows_read", VNum 7)])] in
  completion (answering (json_response 200 payload) 0)
    (DatabaseClient.usage config "db" options)
  = Ok database.
Proof.
  intros config options database payload.
  apply (usage_returns_database_part _ config "db" options database
           (VObj []) (VObj [("rows_read", VNum 7)])).
  eapply answering_receives; [reflexivity | reflexivity | lia].
Defined.

(* ------------------------------------------------------------------ *)
(** ** The stored configuration *)



(* ------------------------------------------------------------------ *)
(** ** Query strings of [createToken] and [usage] *)

Lemma contains_append (c : ascii) (a b : string) :
  contains c (a ++ String c b) = true.
Proof.
  induction a as [|x a IH]; simpl.
  - now rewrite Ascii.eqb_refl.
  - rewrite IH. apply orb_true_r.
Qed.

Lemma set_date_cases name d q :
  (is_invalid_date d /\ DatabaseClient.set_date name d q = Throws RangeError)
  \/ (~ is_invalid_date d
      /\ exists q', DatabaseClient.set_date name d q = Ok q'
           /\ (DatabaseClient.truthy_date d = false -> q' = q)
           /\ (DatabaseClient.truthy_date d = true ->
               exists s, q' = URLSearchParams.set name s q)).
Proof.
  unfold is_invalid_date.
  destruct d as [[date|s]|]; simpl.
  - destruct (Date.toISOString date) as [iso|e] eqn:E.
    + right. split.
      * intros (date' & Hd & Hthrow). inversion Hd; subst. congruence.
      * eexists. split; [reflexivity|]. split; [discriminate|]. eauto.
    + left. assert (e = RangeError) as ->.
      { destruct date as [|ms]; simpl in E; [congruence|].
        destruct (Z.abs ms <=? 8640000000000000); congruence. }
      split; [eauto | reflexivity].
  - right. split; [intros (date & Hd & _); discriminate Hd|].
    destruct (is_empty s); simpl; eexists; (split; [reflexivity|]);
      (split; [try discriminate; reflexivity | try discriminate; eauto]).
  - right. split; [intros (date & Hd & _); discriminate Hd|].
    eexists. split; [reflexivity|]. split; [reflexivity | discriminate].
Qed.

Lemma has_set_same name s q :
  URLSearchParams.has name (URLSearchParams.set name s q) = true.
Proof.
  induction q as [|[n v] q IH]; simpl.
  - now rewrite String.eqb_refl.
  - destruct (String.eqb n name) eqn:E; simpl.
    + now rewrite String.eqb_refl.
    + now rewrite E.
Qed.

Lemma has_filter_other name name' (q : URLSearchParams.t) :
  name <> name' ->
  URLSearchParams.has name
    (filter (fun p => negb (String.eqb (fst p) name')) q)
  = URLSearchParams.has name q.
Proof.
  intros Hne. induction q as [|[n v] q IH]; [reflexivity|]. simpl.
  destruct (String.eqb_spec n name') as [->|Hn]; simpl.
  - destruct (String.eqb_spec name' name); [congruence | exact IH].
  - now rewrite IH.
Qed.

Lemma has_set_other name name' s q :
  name <> name' ->
  URLSearchParams.has name (URLSearchParams.set name' s q)
  = URLSearchParams.has name q.
Proof.
  intros Hne. induction q as [|[n v] q IH]; simpl.
  - destruct (String.eqb_spec name' name); [congruence | reflexivity].
  - destruct (String.eqb_spec n name') as [->|Hn]; simpl.
    + destruct (String.eqb_spec name' name); [congruence|]. simpl.
      fold (URLSearchParams.has name
              (filter (fun p => negb (String.eqb (fst p) name')) q)).
      now apply has_filter_other.
    + now rewrite IH.
Qed.

Lemma createToken_query options :
  URLSearchParams.toString (DatabaseClient.createToken_params options)
  = join "&"
      (parameter (truthy_string (optional options DatabaseClient.expiration))
         "expiration" (template (optional options DatabaseClient.expiration))
       ++ match optional options DatabaseClient.authorization with
          | Some a =>
              parameter true "authorization"
                (DatabaseClient.Authorization_string a)
          | None => []
          end).
Proof.
  destruct options as [[[[|c e]|] [[]|]]|]; reflexivity.
Qed.

Lemma usage_query options query :
  DatabaseClient.usage_params options = Ok query ->
  URLSearchParams.toString query
  = join "&"
      (parameter
         (DatabaseClient.truthy_date (optional options DatabaseClient.from))
         "from" (date_text (optional options DatabaseClient.from))
       ++ parameter
            (DatabaseClient.truthy_date (optional options DatabaseClient.to))
            "to" (date_text (optional options DatabaseClient.to))).
Proof.
  unfold DatabaseClient.usage_params, DatabaseClient.set_date, date_text,
    parameter.
  destruct options as [[f t]|];
    cbn [optional DatabaseClient.from DatabaseClient.to];
    [|intros H; inversion H; reflexivity].
  destruct f as [[df|[|c sf]]|]; destruct t as [[dt|[|c' st]]|];
    cbn [DatabaseClient.truthy_date is_empty negb
           DatabaseClient.formatDateParameter];
    try destruct (Date.toISOString df) as [isof|];
    try destruct (Date.toISOString dt) as [isot|];
    intros H; inversion H; subst; reflexivity.
Qed.

(** C9 as it is worded does not hold: not every call to [usage] has a
    request URL.  With an invalid date for [from], a member that is provided
    and truthy, the call has no request at all. *)
Lemma usage_with_invalid_date_has_no_request :
  ~ (forall (config : TursoConfig.t) (dbName : string)
            (options : option DatabaseClient.UsageOptions),
        exists req,
          first_request (DatabaseClient.usage config dbName options) = Some req
          /\ contains "?" (path req) = true
          /\ exists query,
               DatabaseClient.usage_params options = Ok query
               /\ URLSearchParams.has "from" query
                  = DatabaseClient.truthy_date
                      (optional options DatabaseClient.from)).
Proof.
  intros H.
  destruct (H {| TursoConfig.token := "t";
                 TursoConfig.org := None;
                 TursoConfig.baseUrl := None |}
              "db"
              (Some {| DatabaseClient.from :=
                         Some (DatabaseClient.ADate Date.Invalid);
                       DatabaseClient.to := None |}))
    as (req & Hreq & _).
  discriminate Hreq.
Qed.

(** C9, amended.  Every call to [createToken], and every call to [usage]
    that builds its request, asks for a URL made of the path, a '?' and the
    serialized search parameters; these are empty when no options are
    given, and hold [expiration], [authorization] (resp. [from], [to])
    exactly when the option is provided and truthy.  A call to [usage]
    whose [from] or [to] is an invalid date throws a RangeError and sends
    no request. *)
Theorem query_string_of_createToken_and_usage :
  (forall (config : TursoConfig.t) (dbName : string)
          (options : option DatabaseClient.TokenOptions),
      exists req url,
        first_request (DatabaseClient.createToken config dbName options)
        = Some req
        /\ let query := DatabaseClient.createToken_params options in
           path req = (url ++ "?" ++ URLSearchParams.toString query)%string
           /\ contains "?" (path req) = true
           /\ (options = None -> URLSearchParams.toString query = EmptyString)
           /\ URLSearchParams.has "expiration" query
              = truthy_string (optional options DatabaseClient.expiration)
           /\ URLSearchParams.has "authorization" query
              = truthy_string
                  (option_map DatabaseClient.Authorization_string
                     (optional options DatabaseClient.authorization))
           /\ URLSearchParams.toString query
              = join "&"
                  (parameter
                     (truthy_string
                        (optional options DatabaseClient.expiration))
                     "expiration"
                     (template (optional options DatabaseClient.expiration))
                   ++ match optional options DatabaseClient.authorization with
                      | Some a =>
                          parameter true "authorization"
                            (DatabaseClient.Authorization_string a)
                      | None => []
                      end))
  /\ (forall (config : TursoConfig.t) (dbName : string)
             (options : option DatabaseClient.UsageOptions) (req : Request),
         first_request (DatabaseClient.usage config dbName options) = Some req ->
         exists url query,
           DatabaseClient.usage_params options = Ok query
           /\ path req = (url ++ "?" ++ URLSearchParams.toString query)%string
           /\ contains "?" (path req) = true
           /\ (options = None -> URLSearchParams.toString query = EmptyString)
           /\ URLSearchParams.has "from" query
              = DatabaseClient.truthy_date (optional options DatabaseClient.from)
           /\ URLSearchParams.has "to" query
              = DatabaseClient.truthy_date (optional options DatabaseClient.to)
           /\ URLSearchParams.toString query
              = join "&"
                  (parameter
                     (DatabaseClient.truthy_date
                        (optional options DatabaseClient.from))
                     "from" (date_text (optional options DatabaseClient.from))
                   ++ parameter
                        (DatabaseClient.truthy_date
                           (optional options DatabaseClient.to))
                        "to" (date_text (optional options DatabaseClient.to))))
  /\ (forall (w : World) (config : TursoConfig.t) (dbName : string)
             (options : option DatabaseClient.UsageOptions),
         is_invalid_date (optional options DatabaseClient.from)
         \/ is_invalid_date (optional options DatabaseClient.to) ->
         requests w (DatabaseClient.usage config dbName options) = []
         /\ completion w (DatabaseClient.usage config dbName options)
            = Throws RangeError).
Proof.
  split; [|split].
  - intros config dbName options. eexists. eexists.
    split; [reflexivity|]. cbn zeta.
    split; [reflexivity|]. split; [apply contains_append|].
    split; [intros ->; reflexivity|].
    split; [|split; [|apply createToken_query]];
      destruct options as [[[[|c e]|] [[]|]]|]; reflexivity.
  - intros config dbName options req Hreq.
    unfold DatabaseClient.usage in Hreq.
    destruct (DatabaseClient.usage_params options) as [query|e] eqn:Hq;
      [|discriminate Hreq].
    cbn [bind lift first_request TursoClient.request] in Hreq.
    inversion Hreq; subst; clear Hreq.
    eexists. exists query. split; [reflexivity|].
    split; [reflexivity|]. split; [apply contains_append|].
    split; [|cut (URLSearchParams.has "from" query
                  = DatabaseClient.truthy_date
                      (optional options DatabaseClient.from)
                  /\ URLSearchParams.has "to" query
                     = DatabaseClient.truthy_date
                         (optional options DatabaseClient.to));
             [intros [Hfrom Hto]; repeat split;
              [exact Hfrom | exact Hto | exact (usage_query _ _ Hq)]|]].
    + intros ->. inversion Hq; subst. reflexivity.
    + unfold DatabaseClient.usage_params in Hq.
      destruct (set_date_cases "from" (optional options DatabaseClient.from)
                  URLSearchParams.new)
        as [[_ E1]|[_ (q1 & E1 & Hf1 & Ht1)]]; rewrite E1 in Hq;
        [discriminate Hq|].
      destruct (set_date_cases "to" (optional options DatabaseClient.to) q1)
        as [[_ E2]|[_ (q2 & E2 & Hf2 & Ht2)]]; rewrite E2 in Hq;
        [discriminate Hq|].
      inversion Hq; subst q2; clear Hq.
      destruct (DatabaseClient.truthy_date (optional options DatabaseClient.from));
        destruct (DatabaseClient.truthy_date (optional options DatabaseClient.to)).
      * destruct (Ht1 eq_refl) as [s1 ->]. destruct (Ht2 eq_refl) as [s2 ->].
        split; [|apply has_set_same].
        rewrite has_set_other by discriminate. apply has_set_same.
      * destruct (Ht1 eq_refl) as [s1 ->]. rewrite (Hf2 eq_refl).
        split; [apply has_set_same|]. reflexivity.
      * rewrite (Hf1 eq_refl) in *. destruct (Ht2 eq_refl) as [s2 ->].
        split; [reflexivity | apply has_set_same].
      * rewrite (Hf2 eq_refl), (Hf1 eq_refl). split; reflexivity.
  - intros w config dbName options Hinvalid.
    unfold DatabaseClient.usage, DatabaseClient.usage_params.
    destruct (set_date_cases "from" (optional options DatabaseClient.from)
                URLSearchParams.new)
      as [[I1 E1]|[I1 (q1 & E1 & _)]]; rewrite E1.
    + split; reflexivity.
    + destruct (set_date_cases "to" (optional options DatabaseClient.to) q1)
        as [[I2 E2]|[I2 (q2 & E2 & _)]]; rewrite E2.
      * split; reflexivity.
      * destruct Hinvalid as [I|I]; contradiction.
Qed.

(** The amended claim on a [usage] call with a date and an empty string. *)
Lemma query_string_of_createToken_and_usage_witness :
  let config := {| TursoConfig.token := "t";
                   TursoConfig.org := None;
                   TursoConfig.baseUrl := Some (Some "https://api.turso.tech/v1") |} in
  let options := Some {| DatabaseClient.from :=
                           Some (DatabaseClient.ADate (Date.At 0));
                         DatabaseClient.to :=
                           Some (DatabaseClient.AString EmptyString) |} in
  let req := {| input := URL.new "databases/db/usage?from=1970-01-01T00%3A00%3A00.000Z"
                           (Some "https://api.turso.tech/v1");
                init := TursoClient.request_init config RequestInit.empty |} in
  exists url query,
    DatabaseClient.usage_params options = Ok query
    /\ path req = (url ++ "?" ++ URLSearchParams.toString query)%string
    /\ contains "?" (path req) = true
    /\ (options = None -> URLSearchParams.toString query = EmptyString)
    /\ URLSearchParams.has "from" query
       = DatabaseClient.truthy_date (optional options DatabaseClient.from)
    /\ URLSearchParams.has "to" query
       = DatabaseClient.truthy_date (optional options DatabaseClient.to)
    /\ URLSearchParams.toString query
       = join "&"
           (parameter
              (DatabaseClient.truthy_date
                 (optional options DatabaseClient.from))
              "from" (date_text (optional options DatabaseClient.from))
            ++ parameter
                 (DatabaseClient.truthy_date
                    (optional options DatabaseClient.to))
                 "to" (date_text (optional options DatabaseClient.to))).
Proof.
  intros config options req.
  apply (proj1 (proj2 query_string_of_createToken_and_usage)
           config "db" options req).
  reflexivity.
Defined.

(* ------------------------------------------------------------------ *)
(** ** The body of [databases.create] *)

(** The escapes of [JSON.stringify] and their reading. *)
Lemma all_chars_append p a b :
  all_chars p (a ++ b) = all_chars p a && all_chars p b.
Proof.
  induction a as [|x a IH]; simpl; [reflexivity|].
  now rewrite IH, andb_assoc.
Qed.

Lemma unescape_escape_code_unit c rest :
  unescape_string (escape_code_unit c ++ rest)
  = option_map (String c) (unescape_string rest).
Proof. destruct c as [[] [] [] [] [] [] [] []]; reflexivity. Qed.

Lemma unescape_escape_string s :
  unescape_string (escape_string s) = Some s.
Proof.
  induction s as [|c s IH]; [reflexivity|].
  cbn [escape_string]. now rewrite unescape_escape_code_unit, IH.
Qed.

Lemma escape_code_unit_json c :
  all_chars is_json_char (escape_code_unit c) = true.
Proof. destruct c as [[] [] [] [] [] [] [] []]; reflexivity. Qed.

Lemma escape_string_json s :
  all_chars is_json_char (escape_string s) = true.
Proof.
  induction s as [|c s IH]; [reflexivity|].
  cbn [escape_string].
  now rewrite all_chars_append, escape_code_unit_json, IH.
Qed.

Lemma escape_string_reads_as s : reads_as (escape_string s) s.
Proof. split; [apply unescape_escape_string | apply escape_string_json]. Qed.

(** C10 as it is worded does not hold: with the options
    [{image: "latest", group: undefined}] the key [group] is in the options
    and not in the body, which is the text of [{name, image}]. *)
Lemma undefined_group_is_not_in_the_body :
  ~ (forall (config : TursoConfig.t) (name : string)
            (options : DatabaseClient.CreateOptions) (key : string),
        In key (keys (DatabaseClient.CreateOptions_props options)) ->
        exists req body,
          first_request (DatabaseClient.create config name (Some options))
          = Some req
          /\ RequestInit.body (init req) = Some body
          /\ occurs (quoted key ++ ":") body = true).
Proof.
  intros H.
  destruct (H {| TursoConfig.token := "t";
                 TursoConfig.org := None;
                 TursoConfig.baseUrl := None |}
              "db"
              (DatabaseClient.image_group DatabaseClient.latest None)
              "group")
    as (req & body & Hreq & Hbody & Hocc).
  - simpl. tauto.
  - cbn in Hreq. inversion Hreq; subst; clear Hreq.
    cbn in Hbody. inversion Hbody; subst; clear Hbody.
    vm_compute in Hocc. discriminate Hocc.
Qed.

(** C10, amended.  The body of the request of [create(name)] without
    options is the JSON text of an object with the single member [name],
    [{"name":"<text>"}] where [<text>] reads as [name]; with options it is
    the JSON text of the object whose keys are [name] followed by the keys
    of the options, in the order of the options, each with its value, but
    for a [group] that holds [undefined], which is left out. *)
Theorem create_body_has_name_and_option_keys :
  (forall (config : TursoConfig.t) (name : string),
      exists req name_text,
        first_request (DatabaseClient.create config name None) = Some req
        /\ reads_as name_text name
        /\ RequestInit.body (init req)
           = Some ("{" ++ member "name" name_text ++ "}")%string)
  /\ (forall (config : TursoConfig.t) (name : string)
             (options : DatabaseClient.CreateOptions),
         exists req name_text group_text,
           first_request (DatabaseClient.create config name (Some options))
           = Some req
           /\ reads_as name_text name
           /\ match CreateOptions_group options with
              | Some (Some g) => reads_as group_text g
              | _ => True
              end
           /\ RequestInit.body (init req)
              = Some ("{"
                      ++ join ","
                           (create_members options name_text group_text)
                      ++ "}")%string)
  /\ (forall config : TursoConfig.t,
         let name :=
           ("my" ++ str dquote ++ "db" ++ str backslash
              ++ str (ascii_of_nat 10))%string in
         let options :=
           DatabaseClient.group_image (Some "default") DatabaseClient.canary in
         option_map (fun req => RequestInit.body (init req))
           (first_request (DatabaseClient.create config name (Some options)))
         = Some (Some (String.concat (str dquote)
                         ["{"; "name"; ":";
                          ("my" ++ str backslash)%string;
                          ("db" ++ str backslash ++ str backslash
                             ++ str backslash ++ "n")%string;
                          ","; "group"; ":"; "default"; ",";
                          "image"; ":"; "canary"; "}"]))).
Proof.
  split; [|split].
  - intros config name. eexists. exists (escape_string name).
    split; [reflexivity|]. split; [apply escape_string_reads_as|].
    reflexivity.
  - intros config name [i|i [g|]|[g|] i]; eexists;
      exists (escape_string name);
      first [ exists (escape_string g) | exists EmptyString ];
      (split; [reflexivity|]);
      (split; [apply escape_string_reads_as|]);
      (split; [first [apply escape_string_reads_as | exact I]|]);
      destruct i; reflexivity.
  - reflexivity.
Qed.

(** Further requests, as the client sends them. *)
Example createToken_read_only_request :
  option_map (fun req => (RequestInit.method (init req), path req))
    (first_request
       (DatabaseClient.createToken
          {| TursoConfig.token := "t";
             TursoConfig.org := Some "acme";
             TursoConfig.baseUrl := None |}
          "mydb"
          (Some {| DatabaseClient.expiration := None;
                   DatabaseClient.authorization :=
                     Some DatabaseClient.read_only |})))
  = Some (Some "POST",
          "organizations/acme/databases/mydb/auth/tokens?authorization=read-only").
Proof. reflexivity. Qed.

Example createToken_without_options_request :
  option_map path
    (first_request
       (DatabaseClient.createToken
          {| TursoConfig.token := "t";
             TursoConfig.org := None;
             TursoConfig.baseUrl := None |}
          "mydb" None))
  = Some "databases/mydb/auth/tokens?".
Proof. reflexivity. Qed.

Example create_with_group_body :
  option_map (fun req => RequestInit.body (init req))
    (first_request
       (DatabaseClient.create
          {| TursoConfig.token := "t";
             TursoConfig.org := None;
             TursoConfig.baseUrl := None |}
          "mydb"
          (Some (DatabaseClient.image_group DatabaseClient.canary
                   (Some "default")))))
  = Some (Some (String.concat (str dquote)
                  ["{"; "name"; ":"; "mydb"; ","; "image"; ":"; "canary";
                   ","; "group"; ":"; "default"; "}"])).
Proof. reflexivity. Qed.

Example locations_list_entries :
  completion
    (answering
       (json_response 200
          (VObj [("locations",
                  VObj [("ams", VStr "Amsterdam"); ("lhr", VStr "London")])]))
       0)
    (LocationClient.list
       {| TursoConfig.token := "t";
          TursoConfig.org := None;
          TursoConfig.baseUrl := Some (Some "https://api.turso.tech/v1") |})
  = Ok (VArr [VObj [("code", VStr "ams"); ("description", VStr "Amsterdam")];
              VObj [("code", VStr "lhr"); ("description", VStr "London")]]).
Proof. reflexivity. Qed.

(* ------------------------------------------------------------------ *)
(** * Further properties of the client *)

(** ** One request per call *)

Lemma usage_first_request_None config dbName options :
  first_request (DatabaseClient.usage config dbName options) = None
  <-> is_invalid_date (optional options DatabaseClient.from)
      \/ is_invalid_date (optional options DatabaseClient.to).
Proof.
  unfold DatabaseClient.usage, DatabaseClient.usage_params.
  destruct (set_date_cases "from" (optional options DatabaseClient.from)
              URLSearchParams.new)
    as [[I1 E1]|[I1 (q1 & E1 & _)]]; rewrite E1.
  - split; [intros _; left; exact I1 | reflexivity].
  - destruct (set_date_cases "to" (optional options DatabaseClient.to) q1)
      as [[I2 E2]|[I2 (q2 & E2 & _)]]; rewrite E2.
    + split; [intros _; right; exact I2 | reflexivity].
    + split; [discriminate | intros [I|I]; contradiction].
Qed.

Lemma first_request_None rt client m :
  first_request (invoke rt client m) = None
  <-> exists dbName options,
        m = databases_usage dbName options
        /\ (is_invalid_date (optional options DatabaseClient.from)
            \/ is_invalid_date (optional options DatabaseClient.to)).
Proof.
  split.
  - destruct m; try discriminate. intros H.
    exists dbName, options. split; [reflexivity|].
    now apply (usage_first_request_None (TursoClient.databases client) dbName).
  - intros (dbName & options & -> & H).
    now apply (usage_first_request_None (TursoClient.databases client) dbName).
Qed.

(** X1.  A call never sends more than one request, whatever the transport
    answers: no retry, no second round trip.  It sends none in two cases
    only: [usage] given an invalid date, and a path and base that
    [new URL] refuses. *)
Theorem at_most_one_request :
  forall (rt : value -> option Z) (w : World) (client : TursoClient.t)
         (m : Method),
    (List.length (requests w (invoke rt client m)) <= 1)%nat
    /\ (requests w (invoke rt client m) = []
        <-> (exists dbName options,
               m = databases_usage dbName options
               /\ (is_invalid_date (optional options DatabaseClient.from)
                   \/ is_invalid_date (optional options DatabaseClient.to)))
            \/ (exists req,
                  first_request (invoke rt client m) = Some req
                  /\ accepted w req = false)).
Proof.
  intros rt w client m. rewrite requests_invoke.
  rewrite <- (first_request_None rt client m).
  destruct (first_request (invoke rt client m)) as [req|].
  - destruct (accepted w req) eqn:Hacc; simpl; split; try lia; split.
    + discriminate.
    + intros [H|(req' & Hreq' & Hacc')]; [discriminate|].
      inversion Hreq'; subst. congruence.
    + intros _. right. now exists req.
    + reflexivity.
  - simpl. split; [lia|]. split; [now left | reflexivity].
Qed.

(** ** What every request carries *)

Lemma request_headers_User_Agent c options :
  obj_get "User-Agent" (TursoClient.request_headers c options) = Some "JS SDK".
Proof. unfold TursoClient.request_headers. apply obj_get_set_same. Qed.

Ltac unfold_methods_in H :=
  cbv [invoke createClient TursoClient.constructor TursoClient.apiTokens
         TursoClient.organizations TursoClient.locations TursoClient.groups
         TursoClient.databases
         ApiTokenClient.list ApiTokenClient.create ApiTokenClient.revoke
         ApiTokenClient.validate OrganizationClient.list
         OrganizationClient.members LocationClient.list
         GroupClient.list GroupClient.get
         GroupClient.create GroupClient.delete GroupClient.addLocation
         GroupClient.removeLocation DatabaseClient.list DatabaseClient.get
         DatabaseClient.create DatabaseClient.update DatabaseClient.delete
         DatabaseClient.createToken DatabaseClient.rotateTokens
         DatabaseClient.usage] in H.

(** The request of a call is a [sent_request] on the configuration. *)
Lemma first_request_sent rt c m req :
  first_request (invoke rt (createClient c) m) = Some req ->
  exists url options,
    req = sent_request url (TursoClient.stored_config c) options.
Proof.
  intros Hreq.
  destruct m; unfold_methods_in Hreq;
    try (destruct (DatabaseClient.usage_params options); [|discriminate Hreq]);
    cbn [bind lift first_request TursoClient.request] in Hreq;
    inversion Hreq; eexists; eexists; reflexivity.
Qed.

(** X2.  Every request of a client made by [createClient] carries the
    bearer token of the configuration and the header "User-Agent: JS SDK".
    Its path is resolved against https://api.turso.tech/v1 when the
    configuration has no [baseUrl] key, and otherwise against what the key
    holds, be it [undefined]. *)
Theorem every_request_is_authorized :
  forall (rt : value -> option Z) (c : TursoConfig.t) (m : Method)
         (req : Request),
    first_request (invoke rt (createClient c) m) = Some req ->
    header "Authorization" req
    = Some ("Bearer " ++ TursoConfig.token c)%string
    /\ header "User-Agent" req = Some "JS SDK"
    /\ URL.base (input req)
       = match TursoConfig.baseUrl c with
         | Some held => held
         | None => Some "https://api.turso.tech/v1"
         end.
Proof.
  intros rt c m req Hreq.
  destruct (first_request_sent rt c m req Hreq) as (url & options & ->).
  unfold header. cbn [init sent_request TursoClient.request_init
                        RequestInit.headers input URL.base].
  split; [|split].
  - apply (request_headers_Authorization (TursoClient.stored_config c)).
  - apply request_headers_User_Agent.
  - unfold TursoConfig.read_baseUrl, TursoClient.stored_config.
    cbn [TursoConfig.baseUrl]. now destruct (TursoConfig.baseUrl c).
Qed.

Lemma every_request_is_authorized_witness :
  let c := {| TursoConfig.token := "secret";
              TursoConfig.org := None;
              TursoConfig.baseUrl := Some None |} in
  let req := sent_request "auth/api-tokens/old" c GroupClient.DELETE in
  header "Authorization" req = Some "Bearer secret"
  /\ header "User-Agent" req = Some "JS SDK"
  /\ URL.base (input req) = None.
Proof.
  intros c req.
  apply (every_request_is_authorized (fun _ => None) c
           (apiTokens_revoke "old") req).
  reflexivity.
Defined.

(** X3.  A request has a body exactly for [groups.create] and
    [databases.create]; a request with a body is a POST with the header
    "content-type: application/json". *)
Theorem body_only_on_create :
  forall (rt : value -> option Z) (c : TursoConfig.t) (m : Method)
         (req : Request),
    first_request (invoke rt (createClient c) m) = Some req ->
    (RequestInit.body (init req) <> None <-> sends_body m = true)
    /\ (RequestInit.body (init req) <> None ->
        RequestInit.method (init req) = Some "POST"
        /\ header "content-type" req = Some "application/json").
Proof.
  intros rt c m req Hreq.
  destruct m; unfold_methods_in Hreq;
    try (destruct (DatabaseClient.usage_params options); [|discriminate Hreq]);
    cbn [bind lift first_request TursoClient.request] in Hreq;
    inversion Hreq; subst; clear Hreq;
    cbn [init RequestInit.body RequestInit.method TursoClient.request_init
           RequestInit.empty GroupClient.POST GroupClient.DELETE
           DatabaseClient.POST DatabaseClient.DELETE
           ApiTokenClient.validate_options sends_body];
    (split; [split; try congruence; try discriminate | try congruence]).
  all: try (intros _; split; reflexivity).
  all: try (intros _; discriminate).
  all: intros _; destruct data; discriminate.
Qed.

Lemma body_only_on_create_witness :
  let c := {| TursoConfig.token := "t";
              TursoConfig.org := Some "acme";
              TursoConfig.baseUrl := None |} in
  let data := GroupClient.name_location "default" ["ams"; "lhr"] in
  exists req,
    first_request (GroupClient.create (TursoClient.stored_config c) data)
    = Some req
    /\ path req = "organizations/acme/groups"
    /\ RequestInit.method (init req) = Some "POST"
    /\ header "content-type" req = Some "application/json"
    /\ RequestInit.body (init req)
       = Some (String.concat (str dquote)
                 ["{"; "name"; ":"; "default"; ","; "location"; ":[";
                  "ams"; ","; "lhr"; "]}"]).
Proof.
  intros c data. eexists. split; [reflexivity|].
  split; [reflexivity|].
  destruct (body_only_on_create (fun _ => None) c (groups_create data) _
              eq_refl) as [_ H].
  destruct H as [Hm Hh]; [discriminate|].
  split; [exact Hm|]. split; [exact Hh | reflexivity].
Defined.

(* ------------------------------------------------------------------ *)
(** ** Failures that are not a status *)

(** X4.  When the response has a status from 200 to 299 and a body that is
    not JSON, every method throws the SyntaxError of [response.json()]. *)
Theorem unparsable_body_throws_SyntaxError :
  forall (rt : value -> option Z) (w : World) (client : TursoClient.t)
         (m : Method) (r : Response.t),
    responds w (invoke rt client m) r ->
    (200 <= Response.status r <= 299)%N ->
    Response.json r = None ->
    completion w (invoke rt client m) = Throws SyntaxError.
Proof.
  intros rt w client m r (req & Hreq & Hacc & Hfetch) Hs Hj.
  apply ok_true_iff in Hs.
  pose proof (invoke_one_request rt client m) as Hshape.
  remember (invoke rt client m) as call eqn:Hcall. clear Hcall.
  destruct Hshape as [e _|url c o|url c o k Hk].
  - discriminate.
  - simpl in Hreq. inversion Hreq; subst; clear Hreq.
    unfold completion. rewrite <- run_bind_Return.
    exact (completion_not_json w url c o _ r Hacc Hfetch Hs Hj).
  - simpl in Hreq. inversion Hreq; subst; clear Hreq.
    exact (completion_not_json w url c o _ r Hacc Hfetch Hs Hj).
Qed.

Lemma unparsable_body_throws_SyntaxError_witness :
  let client := createClient {| TursoConfig.token := "t";
                                TursoConfig.org := None;
                                TursoConfig.baseUrl := None |} in
  let no_content := {| Response.status := 204; Response.json := None |} in
  completion (answering no_content 0)
    (invoke (fun _ => None) client (databases_rotateTokens "db"))
  = Throws SyntaxError.
Proof.
  intros client no_content.
  apply (unparsable_body_throws_SyntaxError (fun _ => None)
           (answering no_content 0) client (databases_rotateTokens "db")
           no_content).
  - eexists. split; [reflexivity | split; reflexivity].
  - simpl. lia.
  - reflexivity.
Defined.

(** X5.  When [new URL] accepts the path and the base and [fetch] then
    rejects, every method rejects with the same exception, after that
    single attempt.  When [new URL] refuses them, every method rejects
    with its TypeError and [fetch] is not called. *)
Theorem rejected_fetch_propagates :
  forall (rt : value -> option Z) (w : World) (client : TursoClient.t)
         (m : Method) (req : Request),
    first_request (invoke rt client m) = Some req ->
    (forall e : JsError,
        accepted w req = true ->
        fetch w req = Throws e ->
        completion w (invoke rt client m) = Throws e
        /\ requests w (invoke rt client m) = [req])
    /\ (accepted w req = false ->
        completion w (invoke rt client m) = Throws TypeError
        /\ requests w (invoke rt client m) = []).
Proof.
  intros rt w client m req Hreq. split.
  - intros e Hacc Hfetch.
    split; [|now apply requests_of_first_request].
    pose proof (invoke_one_request rt client m) as Hshape.
    remember (invoke rt client m) as call eqn:Hcall. clear Hcall.
    destruct Hshape as [e' _|url c o|url c o k Hk].
    + discriminate.
    + simpl in Hreq. inversion Hreq; subst; clear Hreq.
      unfold completion. rewrite <- run_bind_Return.
      exact (completion_rejected w url c o _ e Hacc Hfetch).
    + simpl in Hreq. inversion Hreq; subst; clear Hreq.
      exact (completion_rejected w url c o _ e Hacc Hfetch).
  - intros Hacc.
    split; [|now rewrite requests_invoke, Hreq, Hacc].
    pose proof (invoke_one_request rt client m) as Hshape.
    remember (invoke rt client m) as call eqn:Hcall. clear Hcall.
    destruct Hshape as [e' _|url c o|url c o k Hk].
    + discriminate.
    + simpl in Hreq. inversion Hreq; subst; clear Hreq.
      unfold completion. rewrite <- run_bind_Return.
      now rewrite (run_not_accepted w url c o Return Hacc).
    + simpl in Hreq. inversion Hreq; subst; clear Hreq.
      unfold completion. now rewrite (run_not_accepted w url c o k Hacc).
Qed.

(** A network failure at the default base, and a base that is no URL. *)
Lemma rejected_fetch_propagates_witness :
  let offline := {| URL_parses := http_base;
                    fetch := fun _ => Throws TypeError;
                    now := 0 |} in
  let client := createClient {| TursoConfig.token := "t";
                                TursoConfig.org := None;
                                TursoConfig.baseUrl := None |} in
  let astray := createClient {| TursoConfig.token := "t";
                                TursoConfig.org := None;
                                TursoConfig.baseUrl := Some (Some "not a url") |} in
  (completion offline (invoke (fun _ => None) client organizations_list)
   = Throws TypeError
   /\ requests offline (invoke (fun _ => None) client organizations_list)
      = [sent_request "organizations" (TursoClient.config client)
           RequestInit.empty])
  /\ (completion offline (invoke (fun _ => None) astray organizations_list)
      = Throws TypeError
      /\ requests offline (invoke (fun _ => None) astray organizations_list)
         = []).
Proof.
  intros offline client astray. split.
  - apply (proj1 (rejected_fetch_propagates (fun _ => None) offline client
                    organizations_list _ eq_refl) TypeError);
      reflexivity.
  - apply (proj2 (rejected_fetch_propagates (fun _ => None) offline astray
                    organizations_list _ eq_refl)).
    reflexivity.
Defined.

(* ------------------------------------------------------------------ *)
(** ** What the methods return *)

(** The completion of any method on a delivered payload. *)
Lemma completion_plain_receives w url c options payload :
  receives w (TursoClient.request url c options) payload ->
  completion w (TursoClient.request url c options) = Ok payload.
Proof.
  intros (r & (req & Hreq & Hacc & Hfetch) & Hs & Hj).
  simpl in Hreq. inversion Hreq; subst; clear Hreq.
  apply ok_true_iff in Hs.
  unfold completion. rewrite <- run_bind_Return.
  exact (completion_ok w url c options Return r payload Hacc Hfetch Hs Hj).
Qed.

(** X6.  [apiTokens.create], [apiTokens.revoke], [databases.update],
    [databases.delete], [databases.createToken] and
    [databases.rotateTokens] return the parsed payload as it is, whatever
    it holds. *)
Theorem payload_returned_unchanged :
  forall (rt : value -> option Z) (w : World) (client : TursoClient.t)
         (m : Method) (payload : value),
    returns_payload m = true ->
    receives w (invoke rt client m) payload ->
    completion w (invoke rt client m) = Ok payload.
Proof.
  intros rt w client m payload Hm Hrec.
  destruct m; try discriminate Hm; clear Hm;
    cbv [invoke ApiTokenClient.create ApiTokenClient.revoke
           DatabaseClient.update DatabaseClient.delete
           DatabaseClient.createToken DatabaseClient.rotateTokens] in *.
  all: first [ exact (completion_plain_receives _ _ _ _ _ Hrec)
             | rewrite (completion_receives _ _ _ _ _ payload Hrec);
               reflexivity ].
Qed.

Lemma payload_returned_unchanged_witness :
  let client := createClient {| TursoConfig.token := "t";
                                TursoConfig.org := Some "acme";
                                TursoConfig.baseUrl := None |} in
  let payload := VObj [("jwt", VStr "abc")] in
  completion (answering (json_response 200 payload) 0)
    (invoke (fun _ => None) client (databases_createToken "db" None))
  = Ok payload.
Proof.
  intros client payload.
  apply (payload_returned_unchanged (fun _ => None) _ client
           (databases_createToken "db" None) payload).
  - reflexivity.
  - eapply answering_receives; [reflexivity | reflexivity | lia].
Defined.

(** X7.  The methods of [GroupClient] other than [list], and
    [databases.create] and [databases.usage], return the field [group]
    (resp. [database]) of the payload as a property read gives it: the raw
    value when it is there, [undefined] without an error when it is not,
    and a TypeError when the payload itself is [null]. *)
Theorem field_returned_unchecked :
  forall (rt : value -> option Z) (w : World) (client : TursoClient.t)
         (m : Method) (field : string) (payload : value),
    returned_field m = Some field ->
    receives w (invoke rt client m) payload ->
    completion w (invoke rt client m) = get_prop payload field.
Proof.
  intros rt w client m field payload Hm Hrec.
  destruct m; try discriminate Hm; inversion Hm; subst; clear Hm;
    cbv [invoke GroupClient.get GroupClient.create GroupClient.delete
           GroupClient.addLocation GroupClient.removeLocation
           DatabaseClient.create DatabaseClient.usage] in *.
  7: { destruct (DatabaseClient.usage_params options) as [q|e];
         cbn [bind lift] in *.
       - rewrite (completion_receives _ _ _ _ _ payload Hrec).
         unfold completion. now destruct (get_prop payload "database").
       - destruct Hrec as (r & (req & Hreq & _) & _). discriminate Hreq. }
  all: rewrite (completion_receives _ _ _ _ _ payload Hrec);
    unfold completion;
    match goal with |- context [lift (get_prop ?p ?f)] =>
      now destruct (get_prop p f) end.
Qed.

Lemma field_returned_unchecked_witness :
  let client := createClient {| TursoConfig.token := "t";
                                TursoConfig.org := None;
                                TursoConfig.baseUrl := None |} in
  completion (answering (json_response 200 (VObj [])) 0)
    (invoke (fun _ => None) client (groups_get "default"))
  = Ok VUndefined
  /\ completion (answering (json_response 200 VNull) 0)
       (invoke (fun _ => None) client
          (databases_create "db" None))
     = Throws TypeError.
Proof.
  intros client. split.
  - apply (field_returned_unchecked (fun _ => None) _ client
             (groups_get "default") "group" (VObj [])).
    + reflexivity.
    + eapply answering_receives; [reflexivity | reflexivity | lia].
  - apply (field_returned_unchecked (fun _ => None) _ client
             (databases_create "db" None) "database" VNull).
    + reflexivity.
    + eapply answering_receives; [reflexivity | reflexivity | lia].
Defined.

(** X8.  [databases.get] throws a TypeError when the payload has no
    [database], or has [null] there: [formatResponse] reads from it
    without a guard. *)
Theorem databases_get_without_database_throws :
  forall (w : World) (config : TursoConfig.t) (name : string)
         (payload database : value),
    receives w (DatabaseClient.get config name) payload ->
    get_prop payload "database" = Ok database ->
    is_nullish database = true ->
    completion w (DatabaseClient.get config name) = Throws TypeError.
Proof.
  intros w config name payload database Hrec Hdb Hnull.
  rewrite (get_receives _ _ _ _ Hrec), Hdb.
  destruct database; try discriminate Hnull; reflexivity.
Qed.

Lemma databases_get_without_database_throws_witness :
  let config := {| TursoConfig.token := "t";
                   TursoConfig.org := None;
                   TursoConfig.baseUrl := Some (Some "https://api.turso.tech/v1") |} in
  completion (answering (json_response 200 (VObj [("error", VStr "gone")])) 0)
    (DatabaseClient.get config "db")
  = Throws TypeError.
Proof.
  intros config.
  apply (databases_get_without_database_throws _ config "db"
           (VObj [("error", VStr "gone")]) VUndefined).
  - eapply answering_receives; [reflexivity | reflexivity | lia].
  - reflexivity.
  - reflexivity.
Defined.

(** X9.  For each of the six list methods, a field that is [null] in the
    envelope gives the empty list, as a missing one does. *)
Theorem list_with_null_field_is_empty :
  forall (rt : value -> option Z) (w : World) (client : TursoClient.t)
         (m : Method) (field : string) (props : list (string * value)),
    In (m, field) list_methods ->
    receives w (invoke rt client m) (VObj props) ->
    obj_get field props = Some VNull ->
    completion w (invoke rt client m) = Ok (VArr []).
Proof.
  intros rt w client m field props Hin Hrec Hfield.
  simpl in Hin.
  repeat (destruct Hin as [Hin|Hin];
          [inversion Hin; subst; clear Hin
          |]); [..|contradiction].
  all: cbv [invoke ApiTokenClient.list OrganizationClient.list
            OrganizationClient.members LocationClient.list GroupClient.list
            DatabaseClient.list] in *.
  all: rewrite (completion_receives _ _ _ _ _ (VObj props) Hrec).
  all: unfold completion; simpl; rewrite Hfield; reflexivity.
Qed.

Lemma list_with_null_field_is_empty_witness :
  let client := createClient {| TursoConfig.token := "t";
                                TursoConfig.org := None;
                                TursoConfig.baseUrl := None |} in
  completion
    (answering (json_response 200 (VObj [("databases", VNull)])) 0)
    (invoke (fun _ => None) client databases_list)
  = Ok (VArr []).
Proof.
  intros client.
  apply (list_with_null_field_is_empty (fun _ => None) _ client
           databases_list "databases" [("databases", VNull)]).
  - simpl. tauto.
  - eapply answering_receives; [reflexivity | reflexivity | lia].
  - reflexivity.
Defined.

(** X10.  [apiTokens.list], [organizations.list], [organizations.members]
    and [groups.list] return the field of the envelope unchanged as soon as
    it is neither missing nor [null]: it is not checked to be an array. *)
Theorem list_field_returned_unchecked :
  forall (rt : value -> option Z) (w : World) (client : TursoClient.t)
         (m : Method) (field : string) (payload v : value),
    In (m, field) unchecked_list_methods ->
    receives w (invoke rt client m) payload ->
    get_prop payload field = Ok v ->
    is_nullish v = false ->
    completion w (invoke rt client m) = Ok v.
Proof.
  intros rt w client m field payload v Hin Hrec Hfield Hv.
  simpl in Hin.
  repeat (destruct Hin as [Hin|Hin];
          [inversion Hin; subst; clear Hin
          |]); [..|contradiction].
  all: cbv [invoke ApiTokenClient.list OrganizationClient.list
            OrganizationClient.members GroupClient.list] in *.
  all: rewrite (completion_receives _ _ _ _ _ payload Hrec).
  all: unfold completion; simpl; rewrite Hfield; simpl.
  all: destruct v; try discriminate Hv; reflexivity.
Qed.

Lemma list_field_returned_unchecked_witness :
  let client := createClient {| TursoConfig.token := "t";
                                TursoConfig.org := Some "acme";
                                TursoConfig.baseUrl := None |} in
  completion
    (answering (json_response 200 (VObj [("members", VStr "none")])) 0)
    (invoke (fun _ => None) client organizations_members)
  = Ok (VStr "none").
Proof.
  intros client.
  apply (list_field_returned_unchecked (fun _ => None) _ client
           organizations_members "members"
           (VObj [("members", VStr "none")]) (VStr "none")).
  - simpl. tauto.
  - eapply answering_receives; [reflexivity | reflexivity | lia].
  - reflexivity.
  - reflexivity.
Defined.

Lemma list_receives w config payload :
  receives w (DatabaseClient.list config) payload ->
  completion w (DatabaseClient.list config)
  = match get_prop payload "databases" with
    | Ok databases =>
        DatabaseClient.Array_map DatabaseClient.formatResponse
          (nullish databases (VArr []))
    | Throws e => Throws e
    end.
Proof.
  intros Hrec. unfold DatabaseClient.list in *.
  rewrite (completion_receives _ _ _ _ _ payload Hrec).
  unfold completion. simpl.
  destruct (get_prop payload "databases") as [databases|e]; simpl;
    [|reflexivity].
  now destruct (DatabaseClient.Array_map _ _).
Qed.

Lemma map_throwing_In_nullish l x :
  In x l -> is_nullish x = true ->
  DatabaseClient.map_throwing DatabaseClient.formatResponse l
  = Throws TypeError.
Proof.
  intros Hin Hx. induction l as [|y l IH]; [contradiction|]. simpl.
  destruct (DatabaseClient.formatResponse y) as [d|e] eqn:Ey.
  - destruct Hin as [->|Hin].
    + destruct x; discriminate.
    + now rewrite (IH Hin).
  - now rewrite (formatResponse_throws y e Ey).
Qed.

(** X11.  [databases.list] throws a TypeError when [databases] is there
    but is not an array, and when one entry of the array is [null]: no
    partial list is returned. *)
Theorem databases_list_malformed_throws :
  forall (w : World) (config : TursoConfig.t) (payload databases : value),
    receives w (DatabaseClient.list config) payload ->
    get_prop payload "databases" = Ok databases ->
    is_nullish databases = false ->
    (is_array databases = false
     \/ exists entries entry,
          databases = VArr entries /\ In entry entries
          /\ is_nullish entry = true) ->
    completion w (DatabaseClient.list config) = Throws TypeError.
Proof.
  intros w config payload databases Hrec Hdb Hnn Hbad.
  rewrite (list_receives _ _ _ Hrec), Hdb.
  destruct Hbad as [Harr|(entries & entry & -> & Hin & Hnull)].
  - destruct databases; try discriminate; reflexivity.
  - simpl. now rewrite (map_throwing_In_nullish entries entry Hin Hnull).
Qed.

Lemma databases_list_malformed_throws_witness :
  let config := {| TursoConfig.token := "t";
                   TursoConfig.org := None;
                   TursoConfig.baseUrl := Some (Some "https://api.turso.tech/v1") |} in
  let good := VObj [("Name", VStr "a"); ("DbId", VStr "1")] in
  completion
    (answering (json_response 200 (VObj [("databases", VArr [good; VNull])])) 0)
    (DatabaseClient.list config)
  = Throws TypeError.
Proof.
  intros config good.
  apply (databases_list_malformed_throws _ config
           (VObj [("databases", VArr [good; VNull])]) (VArr [good; VNull])).
  - eapply answering_receives; [reflexivity | reflexivity | lia].
  - reflexivity.
  - reflexivity.
  - right. exists [good; VNull], VNull.
    split; [reflexivity|]. split; [simpl; tauto | reflexivity].
Defined.

(** X12.  On a [locations] object, [locations.list] returns one
    [{code, description}] per property, in the order of the object: the
    codes are its keys and the descriptions its values.  An empty object
    gives the empty list. *)
Theorem locations_list_follows_the_object :
  forall (w : World) (config : TursoConfig.t) (payload : value)
         (locations : list (string * value)),
    receives w (LocationClient.list config) payload ->
    get_prop payload "locations" = Ok (VObj locations) ->
    exists entries,
      completion w (LocationClient.list config) = Ok (VArr entries)
      /\ List.length entries = List.length locations
      /\ map (fun entry => get_prop entry "code") entries
         = map (fun kv => Ok (VStr (fst kv))) locations
      /\ map (fun entry => get_prop entry "description") entries
         = map (fun kv => Ok (snd kv)) locations.
Proof.
  intros w config payload locations Hrec Hloc.
  eexists. split; [|split; [|split]].
  - unfold LocationClient.list in *.
    rewrite (completion_receives _ _ _ _ _ payload Hrec).
    unfold completion. simpl. rewrite Hloc. reflexivity.
  - apply length_map.
  - rewrite map_map. reflexivity.
  - rewrite map_map. reflexivity.
Qed.

Lemma locations_list_follows_the_object_witness :
  let config := {| TursoConfig.token := "t";
                   TursoConfig.org := None;
                   TursoConfig.baseUrl := Some (Some "https://api.turso.tech/v1") |} in
  let locations := [("lhr", VStr "London"); ("ams", VStr "Amsterdam")] in
  exists entries,
    completion
      (answering (json_response 200 (VObj [("locations", VObj locations)])) 0)
      (LocationClient.list config)
    = Ok (VArr entries)
    /\ List.length entries = List.length locations
    /\ map (fun entry => get_prop entry "code") entries
       = map (fun kv => Ok (VStr (fst kv))) locations
    /\ map (fun entry => get_prop entry "description") entries
       = map (fun kv => Ok (snd kv)) locations.
Proof.
  intros config locations.
  apply (locations_list_follows_the_object _ config
           (VObj [("locations", VObj locations)]) locations).
  - eapply answering_receives; [reflexivity | reflexivity | lia].
  - reflexivity.
Defined.

(* ------------------------------------------------------------------ *)
(** ** [validate] beyond integers *)

Lemma validate_receives rt w config token payload :
  receives w (ApiTokenClient.validate rt config token) payload ->
  completion w (ApiTokenClient.validate rt config token)
  = match get_prop payload "exp" with
    | Ok exp =>
        Ok (VObj [("valid",
                   VBool (strict_neq_number exp (-1)
                          && gt_number rt exp (now w / 1000)));
                  ("expiry", exp)])
    | Throws e => Throws e
    end.
Proof.
  intros Hrec. unfold ApiTokenClient.validate in *.
  rewrite (completion_receives _ _ _ _ _ payload Hrec).
  unfold completion. simpl. now destruct (get_prop payload "exp").
Qed.

(** X13.  When the payload has no [exp], [validate] does not fail: it
    returns [valid] false and [expiry] [undefined], at any time. *)
Theorem validate_without_exp_is_invalid :
  forall (rt : value -> option Z) (w : World) (config : TursoConfig.t)
         (token : string) (props : list (string * value)),
    receives w (ApiTokenClient.validate rt config token) (VObj props) ->
    obj_get "exp" props = None ->
    completion w (ApiTokenClient.validate rt config token)
    = Ok (VObj [("valid", VBool false); ("expiry", VUndefined)]).
Proof.
  intros rt w config token props Hrec Hexp.
  rewrite (validate_receives _ _ _ _ _ Hrec). simpl. now rewrite Hexp.
Qed.

Lemma validate_without_exp_is_invalid_witness :
  let config := {| TursoConfig.token := "t";
                   TursoConfig.org := None;
                   TursoConfig.baseUrl := Some (Some "https://api.turso.tech/v1") |} in
  completion
    (answering (json_response 200 (VObj [("expires", VNum 99)])) (-5000))
    (ApiTokenClient.validate (fun _ => Some 1) config "secret")
  = Ok (VObj [("valid", VBool false); ("expiry", VUndefined)]).
Proof.
  intros config.
  apply (validate_without_exp_is_invalid (fun _ => Some 1) _ config "secret"
           [("expires", VNum 99)]).
  - eapply answering_receives; [reflexivity | reflexivity | lia].
  - reflexivity.
Defined.

(** X14.  Validity only goes away with time: when the same payload, with
    an integer [exp], is validated at two times, a token found valid at the
    later one is found valid at the earlier one. *)
Theorem validate_valid_earlier :
  forall (rt : value -> option Z) (earlier later : World)
         (config : TursoConfig.t) (token : string) (payload : value)
         (exp : Z),
    receives earlier (ApiTokenClient.validate rt config token) payload ->
    receives later (ApiTokenClient.validate rt config token) payload ->
    get_prop payload "exp" = Ok (VNum exp) ->
    now earlier <= now later ->
    completion later (ApiTokenClient.validate rt config token)
    = Ok (VObj [("valid", VBool true); ("expiry", VNum exp)]) ->
    completion earlier (ApiTokenClient.validate rt config token)
    = Ok (VObj [("valid", VBool true); ("expiry", VNum exp)]).
Proof.
  intros rt earlier later config token payload exp He Hl Hexp Hle.
  rewrite (validate_receives _ _ _ _ _ He), (validate_receives _ _ _ _ _ Hl).
  rewrite Hexp. unfold gt_number. cbn [ToNumber strict_neq_number].
  intros H. injection H as Hv.
  apply andb_true_iff in Hv. destruct Hv as [Hneq Hgt].
  rewrite Z.gtb_ltb in Hgt. apply Z.ltb_lt in Hgt.
  assert (Hdiv : now earlier / 1000 <= now later / 1000)
    by (apply Z.div_le_mono; lia).
  assert (Hlt : (exp >? now earlier / 1000) = true)
    by (rewrite Z.gtb_ltb; apply Z.ltb_lt; lia).
  now rewrite Hneq, Hlt.
Qed.

Lemma validate_valid_earlier_witness :
  let config := {| TursoConfig.token := "t";
                   TursoConfig.org := None;
                   TursoConfig.baseUrl := Some (Some "https://api.turso.tech/v1") |} in
  let payload := VObj [("exp", VNum 1700000000)] in
  completion (answering (json_response 200 payload) 1600000000000)
    (ApiTokenClient.validate (fun _ => None) config "secret")
  = Ok (VObj [("valid", VBool true); ("expiry", VNum 1700000000)]).
Proof.
  intros config payload.
  apply (validate_valid_earlier (fun _ => None)
           (answering (json_response 200 payload) 1600000000000)
           (answering (json_response 200 payload) 1699999999999)
           config "secret" payload 1700000000).
  - eapply answering_receives; [reflexivity | reflexivity | lia].
  - eapply answering_receives; [reflexivity | reflexivity | lia].
  - reflexivity.
  - simpl. lia.
  - reflexivity.
Defined.

(* ------------------------------------------------------------------ *)
(** ** Paths with and without an organization *)

Lemma append_assoc_s (a b c : string) :
  ((a ++ b) ++ c = a ++ (b ++ c))%string.
Proof. induction a as [|x a IH]; simpl; [reflexivity | now rewrite IH]. Qed.

Lemma append_nil_s (a : string) : (a ++ EmptyString)%string = a.
Proof. induction a as [|x a IH]; simpl; [reflexivity | now rewrite IH]. Qed.

(** X15.  But for [databases.update], a method of [GroupClient] or
    [DatabaseClient] sends, under a non-empty [org], the request it sends
    without [org] with "organizations/{org}/" put before the path: same
    method, headers and body. *)
Theorem org_scoped_request_extends_legacy_request :
  forall (rt : value -> option Z) (token o : string)
         (baseUrl : option (option string)) (m : Method)
         (legacy : Request),
    in_group_or_database_client m = true ->
    (forall name, m <> databases_update name) ->
    o <> EmptyString ->
    first_request
      (invoke rt (createClient {| TursoConfig.token := token;
                                  TursoConfig.org := None;
                                  TursoConfig.baseUrl := baseUrl |}) m)
    = Some legacy ->
    exists scoped,
      first_request
        (invoke rt (createClient {| TursoConfig.token := token;
                                    TursoConfig.org := Some o;
                                    TursoConfig.baseUrl := baseUrl |}) m)
      = Some scoped
      /\ path scoped = ("organizations/" ++ o ++ "/" ++ path legacy)%string
      /\ init scoped = init legacy
      /\ URL.base (input scoped) = URL.base (input legacy).
Proof.
  intros rt token o baseUrl m legacy Hm Hupd Ho Hreq.
  destruct o as [|c o]; [congruence|]. clear Ho.
  destruct m; try discriminate Hm; clear Hm;
    try (exfalso; eapply Hupd; reflexivity); clear Hupd;
    unfold_methods_in Hreq;
    match goal with
    | |- exists _, first_request ?call = _ /\ _ =>
        let call' := eval cbv [invoke createClient TursoClient.constructor
          TursoClient.groups TursoClient.databases GroupClient.list
          GroupClient.get GroupClient.create GroupClient.delete
          GroupClient.addLocation GroupClient.removeLocation
          DatabaseClient.list DatabaseClient.get DatabaseClient.create
          DatabaseClient.delete DatabaseClient.createToken
          DatabaseClient.rotateTokens DatabaseClient.usage] in call in
        change call with call'
    end;
    try (destruct (DatabaseClient.usage_params options); [|discriminate Hreq]);
    cbn [bind lift first_request TursoClient.request] in Hreq |- *;
    inversion Hreq; subst; clear Hreq;
    (eexists; split; [reflexivity|]);
    cbn [path input init URL.url URL.base TursoClient.stored_config
           TursoConfig.org TursoConfig.token TursoConfig.baseUrl
           truthy_string is_empty negb template];
    (split; [|split; reflexivity]);
    rewrite ?append_assoc_s; reflexivity.
Qed.

Lemma org_scoped_request_extends_legacy_request_witness :
  let legacy :=
    sent_request "databases/db/auth/tokens?expiration=2w"
      {| TursoConfig.token := "t";
         TursoConfig.org := None;
         TursoConfig.baseUrl := Some (Some TursoClient.default_baseUrl) |}
      DatabaseClient.POST in
  let call :=
    databases_createToken "db"
      (Some {| DatabaseClient.expiration := Some "2w";
               DatabaseClient.authorization := None |}) in
  exists scoped,
    first_request
      (invoke (fun _ => None)
         (createClient {| TursoConfig.token := "t";
                          TursoConfig.org := Some "acme";
                          TursoConfig.baseUrl := None |}) call)
    = Some scoped
    /\ path scoped
       = ("organizations/" ++ "acme" ++ "/" ++ path legacy)%string
    /\ init scoped = init legacy
    /\ URL.base (input scoped) = URL.base (input legacy).
Proof.
  intros legacy call.
  apply (org_scoped_request_extends_legacy_request (fun _ => None) "t" "acme"
           None call legacy).
  - reflexivity.
  - discriminate.
  - discriminate.
  - reflexivity.
Defined.

(** X16.  [databases.update] posts to the path of [databases.get] followed
    by "/update" when [org] is a non-empty string, and to the very path of
    [databases.get] (and of [create] and [delete]) otherwise. *)
Theorem databases_update_path :
  forall (config : TursoConfig.t) (name : string),
    exists update get,
      first_request (DatabaseClient.update config name) = Some update
      /\ first_request (DatabaseClient.get config name) = Some get
      /\ RequestInit.method (init update) = Some "POST"
      /\ RequestInit.body (init update) = None
      /\ path update
         = (path get
            ++ if truthy_string (TursoConfig.org config)
               then "/update" else EmptyString)%string.
Proof.
  intros config name. eexists. eexists.
  split; [reflexivity|]. split; [reflexivity|].
  split; [reflexivity|]. split; [reflexivity|].
  cbn [path input URL.url].
  destruct (truthy_string (TursoConfig.org config)).
  - now rewrite !append_assoc_s.
  - now rewrite append_nil_s.
Qed.

(* ------------------------------------------------------------------ *)
(** ** Query strings can be read back *)

Lemma encode_char_is_encoded c :
  all_chars is_encoded_char
    (String.concat EmptyString
       (map URLSearchParams.encode_byte (URLSearchParams.utf8 c))) = true.
Proof. destruct c as [[] [] [] [] [] [] [] []]; reflexivity. Qed.

Lemma encode_is_encoded s :
  all_chars is_encoded_char (URLSearchParams.encode s) = true.
Proof.
  induction s as [|c s IH]; simpl; [reflexivity|].
  now rewrite all_chars_append, encode_char_is_encoded, IH.
Qed.

Lemma encoded_without c s :
  is_encoded_char c = false ->
  all_chars is_encoded_char s = true -> contains c s = false.
Proof.
  intros Hc. induction s as [|a s IH]; simpl; [reflexivity|].
  intros H. apply andb_true_iff in H. destruct H as [Ha Hs].
  rewrite (IH Hs), orb_false_r.
  destruct (Ascii.eqb_spec a c); [congruence | reflexivity].
Qed.

Lemma split_on_without c s :
  contains c s = false -> split_on c s = [s].
Proof.
  induction s as [|a s IH]; simpl; [reflexivity|].
  intros H. apply orb_false_iff in H. destruct H as [Ha Hs].
  now rewrite (IH Hs), Ha.
Qed.

Lemma split_on_nonempty c s : split_on c s <> [].
Proof.
  induction s as [|a s IH]; simpl; [discriminate|].
  destruct (split_on c s); [congruence|].
  destruct (Ascii.eqb a c); discriminate.
Qed.

Lemma split_on_append c a b :
  contains c a = false ->
  split_on c (a ++ String c b) = a :: split_on c b.
Proof.
  induction a as [|x a IH]; simpl.
  - intros _. rewrite Ascii.eqb_refl.
    destruct (split_on c b) eqn:E; [|reflexivity].
    now destruct (split_on_nonempty c b).
  - intros H. apply orb_false_iff in H. destruct H as [Hx Ha].
    now rewrite (IH Ha), Hx.
Qed.

Lemma split_on_join c l :
  l <> [] ->
  Forall (fun s => contains c s = false) l ->
  split_on c (join (str c) l) = l.
Proof.
  intros Hne Hl. induction Hl as [|x l Hx Hl IH]; [congruence|]. clear Hne.
  destruct l as [|y l].
  - simpl. now apply split_on_without.
  - change (join (str c) (x :: y :: l))
      with (x ++ String c (join (str c) (y :: l)))%string.
    rewrite (split_on_append c x _ Hx), IH by discriminate. reflexivity.
Qed.

Lemma contains_append_false c a b :
  contains c a = false -> contains c b = false ->
  contains c (a ++ b) = false.
Proof.
  induction a as [|x a IH]; simpl; [auto|].
  intros H Hb. apply orb_false_iff in H. destruct H as [Hx Ha].
  now rewrite Hx, (IH Ha Hb).
Qed.

(** A serialized query, when it has a parameter, reads back into the
    serialized names and values, pair by pair. *)
Lemma read_query_toString (q : URLSearchParams.t) :
  q <> [] -> read_query (URLSearchParams.toString q) = serialized_pairs q.
Proof.
  intros Hq. unfold read_query, URLSearchParams.toString, serialized_pairs.
  assert (Hamp : forall s, contains "&" (URLSearchParams.encode s) = false)
    by (intros s; apply encoded_without;
        [reflexivity | apply encode_is_encoded]).
  assert (Heq : forall s, contains "=" (URLSearchParams.encode s) = false)
    by (intros s; apply encoded_without;
        [reflexivity | apply encode_is_encoded]).
  change "&"%string with (str "&").
  rewrite split_on_join.
  - rewrite map_map. apply map_ext. intros [n v]. simpl.
    rewrite (split_on_append "=" _ _ (Heq n)).
    now rewrite (split_on_without "=" _ (Heq v)).
  - destruct q; [congruence | discriminate].
  - apply Forall_forall. intros s Hs. apply in_map_iff in Hs.
    destruct Hs as ([n v] & <- & _). simpl.
    apply contains_append_false; [apply Hamp|].
    simpl. apply Hamp.
Qed.

(** X17.  The query string of [createToken] and of [usage] cannot be
    misread: whatever characters an expiration or a date string holds, the
    query, cut at "&" and "=", gives back exactly the parameters that were
    set, each as its encoded name and encoded value. *)
Theorem query_string_reads_back :
  (forall (options : option DatabaseClient.TokenOptions),
      let query := DatabaseClient.createToken_params options in
      query <> [] ->
      read_query (URLSearchParams.toString query)
      = (if truthy_string (optional options DatabaseClient.expiration)
         then [["expiration";
                URLSearchParams.encode
                  (template (optional options DatabaseClient.expiration))]]
         else [])
        ++ match optional options DatabaseClient.authorization with
           | Some a => [["authorization";
                         DatabaseClient.Authorization_string a]]
           | None => []
           end)
  /\ (forall (options : option DatabaseClient.UsageOptions)
             (query : URLSearchParams.t),
         DatabaseClient.usage_params options = Ok query ->
         query <> [] ->
         read_query (URLSearchParams.toString query)
         = (if DatabaseClient.truthy_date
                 (optional options DatabaseClient.from)
            then [["from";
                   URLSearchParams.encode
                     (date_text (optional options DatabaseClient.from))]]
            else [])
           ++ (if DatabaseClient.truthy_date
                    (optional options DatabaseClient.to)
               then [["to";
                      URLSearchParams.encode
                        (date_text (optional options DatabaseClient.to))]]
               else [])).
Proof.
  split.
  - intros options query Hq. rewrite (read_query_toString query Hq).
    subst query.
    destruct options as [[[[|c e]|] [[]|]]|]; reflexivity.
  - intros options query Hparams Hq. rewrite (read_query_toString query Hq).
    clear Hq. revert Hparams.
    unfold DatabaseClient.usage_params, DatabaseClient.set_date, date_text.
    destruct options as [[f t]|];
      cbn [optional DatabaseClient.from DatabaseClient.to];
      [|intros H; inversion H; reflexivity].
    destruct f as [[df|[|c sf]]|]; destruct t as [[dt|[|c' st]]|];
      cbn [DatabaseClient.truthy_date is_empty negb
             DatabaseClient.formatDateParameter];
      try destruct (Date.toISOString df) as [isof|];
      try destruct (Date.toISOString dt) as [isot|];
      intros H; inversion H; subst; reflexivity.
Qed.

Lemma query_string_reads_back_witness :
  let options :=
    Some {| DatabaseClient.expiration := Some "1d&authorization=full-access";
            DatabaseClient.authorization := Some DatabaseClient.read_only |} in
  URLSearchParams.toString (DatabaseClient.createToken_params options)
  = "expiration=1d%26authorization%3Dfull-access&authorization=read-only"
  /\ read_query
       (URLSearchParams.toString (DatabaseClient.createToken_params options))
     = [["expiration"; "1d%26authorization%3Dfull-access"];
        ["authorization"; "read-only"]].
Proof.
  intros options. split; [reflexivity|].
  apply (proj1 query_string_reads_back options). discriminate.
Defined.

(* ------------------------------------------------------------------ *)
(** ** JSON bodies can be read back *)

Lemma length_append_s (a b : string) :
  String.length (a ++ b) = (String.length a + String.length b)%nat.
Proof. induction a as [|x a IH]; simpl; [reflexivity | now rewrite IH]. Qed.

Lemma append_cancel_r (a b c : string) :
  (a ++ c = b ++ c)%string -> a = b.
Proof.
  revert b. induction a as [|x a IH]; intros [|y b] H; simpl in H.
  - reflexivity.
  - apply (f_equal String.length) in H. simpl in H.
    rewrite length_append_s in H. lia.
  - apply (f_equal String.length) in H. simpl in H.
    rewrite length_append_s in H. lia.
  - injection H as -> H. f_equal. now apply IH.
Qed.

(** X18.  The body of [databases.create(name)] is
    [{"name":"<text>"}] where [<text>] holds no control character and no
    bare quote, and reads back into [name] by undoing the escapes: any
    name, with quotes, backslashes or line breaks in it, travels intact,
    and two names never give the same body. *)
Theorem create_body_reads_back :
  forall (config : TursoConfig.t) (name : string),
    exists req text,
      first_request (DatabaseClient.create config name None) = Some req
      /\ RequestInit.body (init req)
         = Some ("{" ++ json_member "name"
                          (String dquote text ++ str dquote) ++ "}")%string
      /\ all_chars is_json_char text = true
      /\ unescape_string text = Some name
      /\ forall (config' : TursoConfig.t) (name' : string) req',
           first_request (DatabaseClient.create config' name' None)
           = Some req' ->
           RequestInit.body (init req') = RequestInit.body (init req) ->
           name' = name.
Proof.
  intros config name. eexists. exists (escape_string name).
  split; [reflexivity|]. split; [reflexivity|].
  split; [apply escape_string_json|].
  split; [apply unescape_escape_string|].
  intros config' name' req' Hreq' Hbody.
  cbn in Hreq'. inversion Hreq'; subst; clear Hreq'.
  cbn in Hbody. unfold QuoteJSONString in Hbody.
  injection Hbody as Hbody.
  apply append_cancel_r in Hbody. apply append_cancel_r in Hbody.
  assert (E : Some name' = Some name)
    by (rewrite <- (unescape_escape_string name'), Hbody;
        apply unescape_escape_string).
  now inversion E.
Qed.

(* ------------------------------------------------------------------ *)
(** ** How [request] merges the options of its caller *)

Lemma obj_get_spread {A : Type} k (acc h : list (string * A)) :
  NoDup (keys h) ->
  obj_get k (obj_spread acc h)
  = match obj_get k h with
    | Some v => Some v
    | None => obj_get k acc
    end.
Proof.
  unfold obj_spread. revert acc.
  induction h as [|[k' v'] h IH]; intros acc Hnd; [reflexivity|].
  inversion Hnd as [|? ? Hnotin Hnd']; subst.
  cbn [fold_left fst snd]. rewrite (IH _ Hnd'). cbn [obj_get].
  destruct (String.eqb_spec k' k) as [->|Hne].
  - assert (Hnone : obj_get k h = None).
    { clear -Hnotin. induction h as [|[k0 v0] h IH]; [reflexivity|].
      simpl in *. destruct (String.eqb_spec k0 k); [tauto|].
      apply IH. tauto. }
    rewrite Hnone. apply obj_get_set_same.
  - destruct (obj_get k h); [reflexivity|].
    apply obj_get_set_other. congruence.
Qed.

(** X19.  [TursoClient.request] keeps the method, the body and the headers
    of its caller, but for two headers it always writes itself, over any
    the caller gave: "Authorization", from the token of the configuration,
    and "User-Agent". *)
Theorem request_merges_options :
  forall (url : string) (c : TursoConfig.t) (options : RequestInit.t)
         (given : list (string * string)),
    RequestInit.headers options = Some given ->
    NoDup (keys given) ->
    exists req,
      first_request (TursoClient.request url c options) = Some req
      /\ path req = url
      /\ RequestInit.method (init req) = RequestInit.method options
      /\ RequestInit.body (init req) = RequestInit.body options
      /\ header "Authorization" req
         = Some ("Bearer " ++ TursoConfig.token c)%string
      /\ header "User-Agent" req = Some "JS SDK"
      /\ forall name,
           name <> "Authorization" -> name <> "User-Agent" ->
           header name req = obj_get name given.
Proof.
  intros url c options given Hgiven Hnd. eexists.
  split; [reflexivity|]. split; [reflexivity|].
  split; [reflexivity|]. split; [reflexivity|].
  unfold header. cbn [init TursoClient.request_init RequestInit.headers].
  split; [apply request_headers_Authorization|].
  split; [apply request_headers_User_Agent|].
  intros name Ha Hu. unfold TursoClient.request_headers. rewrite Hgiven.
  rewrite !obj_get_set_other by assumption.
  rewrite (obj_get_spread name [] given Hnd).
  now destruct (obj_get name given).
Qed.

Lemma request_merges_options_witness :
  let c := {| TursoConfig.token := "t";
              TursoConfig.org := None;
              TursoConfig.baseUrl := None |} in
  let given := [("User-Agent", "mine"); ("accept", "application/json");
                ("Authorization", "Basic abc")] in
  let options := {| RequestInit.method := Some "PATCH";
                    RequestInit.headers := Some given;
                    RequestInit.body := Some "{}" |} in
  exists req,
    first_request (TursoClient.request "groups/default" c options) = Some req
    /\ path req = "groups/default"
    /\ RequestInit.method (init req) = Some "PATCH"
    /\ RequestInit.body (init req) = Some "{}"
    /\ header "Authorization" req = Some "Bearer t"
    /\ header "User-Agent" req = Some "JS SDK"
    /\ forall name,
         name <> "Authorization" -> name <> "User-Agent" ->
         header name req = obj_get name given.
Proof.
  intros c given options.
  apply (request_merges_options "groups/default" c options given).
  - reflexivity.
  - repeat constructor; simpl; intuition discriminate.
Defined.
